(** * Session store and request handler of [server/api/mcp-chat.ts]

    A shallow embedding of the chat endpoint: the in-memory session cache
    ([sessionsCache]), its whole-file persistence ([loadSessions],
    [saveSessions]) and the action-dispatching event handler with its
    helpers ([createSession], [getSessionInfo], [deleteSession],
    [handleDirectChat], [handleSessionChat], [generateId]).

    The cache is a [gmap] from conversation ids to session records.  The
    environment of a request (runtime configuration, clock, random
    generator, outcome of the disk write) is passed explicitly, and the
    handler is a state-passing function over [World]; the promise that it
    returns for a chat is settled by [eventHandler], the SDK being a
    parameter.

    The pure functions of the pages that call the endpoint follow: the
    search, the labels and the relative times of the sidebar
    ([components/MCPSidebar.vue]), and the loaded history and the links
    of the session page ([pages/mcp/[id].vue]). *)

From Stdlib Require Import ZArith String Ascii.
From Stdlib Require Import DecimalString DecimalZ.
From stdpp Require Import gmap strings list fin_maps.

Local Open Scope Z_scope.
Local Open Scope string_scope.

(** ** Data model *)

(** [role: "system" | "user" | "assistant" | "tool"]. *)
Inductive Role := system | user | assistant | tool.

(** An element of [MCPSession.messages]; [name] is optional. *)
Record Message := mkMessage {
  role : Role;
  content : string;
  name : option string;
}.

(** A JavaScript [Date]: a time value in milliseconds since the epoch, or
    the invalid date (time value NaN). *)
Inductive Date :=
| Instant (ms : Z)
| InvalidDate.

(** A number as [JSON.parse] produces it: a double.  It is finite, of
    value [mantissa * 2 ^ exponent] and other than negative zero, or it is
    negative zero (the numeral [-0]), or an infinity (a numeral beyond the
    range of a double, such as [1e400]). *)
Inductive number :=
| Finite (mantissa exponent : Z)
| NegativeZero
| PositiveInfinity
| NegativeInfinity.

(** The values that [readBody] and [JSON.parse] produce; the session
    metadata is an arbitrary one.  The fields of an object are listed in
    the order of enumeration. *)
#[local] Set Warnings "-register-all".
Inductive json :=
| JNull
| JBool (b : bool)
| JNum (n : number)
| JStr (s : string)
| JArr (items : list json)
| JObj (fields : list (string * json)).

(** [type MCPSession]. *)
Record MCPSession := mkSession {
  conversationId : string;
  messages : list Message;
  metadata : json;
  createdAt : Date;
  updatedAt : Date;
}.

(** A date field of a session object of the file, as [JSON.parse] gives
    it to [new Date]: a string, [null], no field at all, or a value of
    another kind (a number, a boolean, an array, an object), taken with
    the date that the constructor makes of it. *)
Inductive StoredDate :=
| DateText (s : string)
| DateNull
| DateMissing
| DateOther (d : Date).

(** A session object of the file, as [JSON.parse] reads it: the fields
    of a session, the date fields being whatever the file holds there.
    [JSON.stringify] writes each date as the result of
    [Date.prototype.toJSON], an ISO string or [null]. *)
Record StoredSession := mkStored {
  stored_conversationId : string;
  stored_messages : list Message;
  stored_metadata : json;
  stored_createdAt : StoredDate;
  stored_updatedAt : StoredDate;
}.

(** The state of [SESSIONS_FILE] as [loadSessions] observes it; the JSON
    text itself is left to [JSON.stringify] and [JSON.parse].  A
    [Document] is a file whose text parses to a sessions object, every
    entry of which is a session object.  An [Interrupted] file parses as
    well, but the enumeration of its entries meets, after the session
    objects [before], an entry that is not an object ([null], a number, a
    string, a boolean): assigning [createdAt] on it throws, inside the
    [try] block of [loadSessions].  A text that parses to something else
    than an object is one of these two: [null] makes [Object.entries]
    throw and a non-empty string has its characters for entries
    ([Interrupted ∅]), a number, a boolean and the empty string have no
    entry ([Document ∅]), and an array has its elements for entries. *)
Inductive File :=
| NoFile                                      (* existsSync is false *)
| Unreadable                                  (* readFileSync throws *)
| Malformed                                   (* JSON.parse throws *)
| Document (d : gmap string StoredSession)    (* a parsed sessions object *)
| Interrupted (before : gmap string StoredSession).

(** Whether [fs.writeFileSync] succeeds; when it throws, the file is left
    in some state chosen by the environment. *)
Inductive WriteOutcome :=
| WriteOk
| WriteFails (residue : File).

(** The module-level state: the cache and the file behind it. *)
Record World := mkWorld {
  sessionsCache : gmap string MCPSession;
  sessionsFile : File;
}.

(** The conversion between time values and date strings is the
    runtime's: [Date.prototype.toISOString] on a valid date, and the date
    constructor applied to a string. *)
Class DateCodec := {
  toISOString : Z → string;
  parseDate : string → Date;
}.

(** The guarantee of the language standard: a valid date printed by
    [toISOString] is parsed back to the same instant. *)
Definition codec_lossless `{DateCodec} : Prop :=
  ∀ t : Z, parseDate (toISOString t) = Instant t.

(** ** Requests, responses and errors *)

(** An element of [body.messages]. *)
Record ChatMessage := mkChat {
  chat_role : string;
  chat_content : string;
}.

(** The request body after [readBody]; [None] is an absent field.
    [data_conversationId] is [body.data?.conversationId]. *)
Module Body.
Record t := mk {
  action : option string;
  conversationId : option string;
  metadata : option json;
  messages : option (list ChatMessage);
  data_conversationId : option string;
}.
End Body.

(** What one request reads from outside the module. *)
Record Env := mkEnv {
  openaiApiKey : option string;   (* useRuntimeConfig().openaiApiKey *)
  clock : Z;                      (* the instant of new Date() *)
  random1 : string;               (* first Math.random().toString(36) *)
  random2 : string;               (* second Math.random().toString(36) *)
  write : WriteOutcome;           (* outcome of writeFileSync, if called *)
}.

(** The [messages] argument of [streamText]. *)
Inductive Prompt :=
| RawMessages (l : list ChatMessage)   (* handleDirectChat *)
| History (l : list Message).          (* handleSessionChat *)

(** The [onFinish] callback given to [streamText]: the one of
    [handleDirectChat] only logs, the one of [handleSessionChat] appends
    the reply to the session it captured. *)
Inductive FinishHook :=
| LogOnly
| AppendReply (session : string).

Inductive Response :=
| Created (conversationId : string) (metadata : json)
          (createdAt : string) (messageCount : nat)
| SessionInfo (conversationId : string) (metadata : json)
              (createdAt updatedAt : string) (messageCount : nat)
| Deleted (success : bool) (message : string)
| DataStream (prompt : Prompt) (onFinish : FinishHook).

(** Exceptions: the errors built by [createError] and the runtime's. *)
Inductive Exn :=
| H3Error (statusCode : Z) (message : string)
| TypeError
| RangeError.

(** What the caller of the endpoint observes. *)
Inductive Reply :=
| Respond (r : Response)
| Fail (statusCode : Z) (message : string).

(** ** JavaScript truthiness *)

Definition truthy (o : option string) : bool :=
  match o with
  | Some s => negb (s =? "")
  | None => false
  end.

Definition truthy_json (j : json) : bool :=
  match j with
  | JNull => false
  | JBool b => b
  | JNum (Finite mantissa _) => negb (mantissa =? 0)%Z
  | JNum NegativeZero => false
  | JNum (PositiveInfinity | NegativeInfinity) => true
  | JStr s => negb (s =? "")
  | JArr _ | JObj _ => true
  end.

(** [o || d] on an optional string. *)
Definition or_default (o : option string) (d : string) : string :=
  match o with
  | Some s => if s =? "" then d else s
  | None => d
  end.

(** [body.metadata || {}]. *)
Definition metadata_or_empty (o : option json) : json :=
  match o with
  | Some j => if truthy_json j then j else JObj []
  | None => JObj []
  end.

(** ** Updates of a session object *)

(** [session.messages.push(m)]. *)
Definition push_message (m : Message) (session : MCPSession) : MCPSession :=
  {| conversationId := conversationId session;
     messages := messages session ++ [m];
     metadata := metadata session;
     createdAt := createdAt session;
     updatedAt := updatedAt session |}.

(** [session.updatedAt = d]. *)
Definition set_updatedAt (d : Date) (session : MCPSession) : MCPSession :=
  {| conversationId := conversationId session;
     messages := messages session;
     metadata := metadata session;
     createdAt := createdAt session;
     updatedAt := d |}.

(** ** Persistence *)

(** [JSON.parse(JSON.stringify(v))]: what the file gives back of a value.
    [JSON.stringify] writes an infinity as [null] and negative zero as
    [0]; every other number, every string and boolean, and the elements
    and fields of arrays and objects, in their order, are read back as
    they were. *)
Fixpoint json_roundtrip (v : json) : json :=
  match v with
  | JNum NegativeZero => JNum (Finite 0 0)
  | JNum (PositiveInfinity | NegativeInfinity) => JNull
  | JArr items => JArr (map json_roundtrip items)
  | JObj fields =>
      JObj (map (λ field, match field with
                          | (key, x) => (key, json_roundtrip x)
                          end) fields)
  | _ => v
  end.

(** The values that JSON carries unchanged: those holding no infinity
    and no negative zero. *)
Fixpoint json_carried (v : json) : bool :=
  match v with
  | JNum (Finite _ _) => true
  | JNum _ => false
  | JArr items => forallb json_carried items
  | JObj fields =>
      forallb (λ field, match field with
                        | (_, x) => json_carried x
                        end) fields
  | _ => true
  end.

Section Store.
Context `{DateCodec}.

(** [Date.prototype.toJSON]: the ISO string, or [null] for an invalid
    date. *)
Definition toJSON (d : Date) : option string :=
  match d with
  | Instant t => Some (toISOString t)
  | InvalidDate => None
  end.

(** [new Date(v)] for [v] a string or [null]; [null] converts to the
    number 0. *)
Definition newDate (v : option string) : Date :=
  match v with
  | Some s => parseDate s
  | None => Instant 0
  end.

(** A date field as [JSON.stringify] writes it. *)
Definition writtenDate (d : Date) : StoredDate :=
  match toJSON d with
  | Some s => DateText s
  | None => DateNull
  end.

(** [new Date(v)] for [v] a date field of the file; a missing field is
    [undefined], which gives the invalid date. *)
Definition newDateOf (v : StoredDate) : Date :=
  match v with
  | DateText s => newDate (Some s)
  | DateNull => newDate None
  | DateMissing => InvalidDate
  | DateOther d => d
  end.

(** The session object that [JSON.parse] reads from what
    [JSON.stringify] wrote for a session: the strings as they were, the
    metadata as JSON carries them, the dates as written by [toJSON]. *)
Definition stringify (s : MCPSession) : StoredSession :=
  {| stored_conversationId := conversationId s;
     stored_messages := messages s;
     stored_metadata := json_roundtrip (metadata s);
     stored_createdAt := writtenDate (createdAt s);
     stored_updatedAt := writtenDate (updatedAt s) |}.

(** The body of the loop of [loadSessions]: the two date fields are
    converted back to dates, everything else is kept. *)
Definition revive (s : StoredSession) : MCPSession :=
  {| conversationId := stored_conversationId s;
     messages := stored_messages s;
     metadata := stored_metadata s;
     createdAt := newDateOf (stored_createdAt s);
     updatedAt := newDateOf (stored_updatedAt s) |}.

(** [saveSessions]: copies the entries of the cache into a fresh object
    by [sessionsData[id] = session] and writes its JSON text; a failing
    write is caught.  For the key [__proto__] the assignment sets the
    prototype of the object and adds no entry, so that [JSON.stringify]
    does not write this session. *)
Definition saveSessions (out : WriteOutcome) (w : World) : World :=
  let sessionsData : gmap string MCPSession :=
    map_fold (λ id session acc,
                if id =? "__proto__" then acc else <[id := session]> acc)
             ∅ (sessionsCache w) in
  match out with
  | WriteOk =>
      {| sessionsCache := sessionsCache w;
         sessionsFile := Document (stringify <$> sessionsData) |}
  | WriteFails residue =>
      {| sessionsCache := sessionsCache w; sessionsFile := residue |}
  end.

(** [loadSessions]: every entry of the parsed file is set in the cache;
    a missing file, a read error and a parse error leave the cache as
    it is.  When an entry is not an object the loop throws there: the
    entries set before it stay in the cache and the error is caught. *)
Definition loadSessions (w : World) : World :=
  match sessionsFile w with
  | Document sessionsData | Interrupted sessionsData =>
      {| sessionsCache :=
           map_fold (λ id session acc, <[id := revive session]> acc)
                    (sessionsCache w) sessionsData;
         sessionsFile := sessionsFile w |}
  | NoFile | Unreadable | Malformed => w
  end.

(** The state after module initialisation: an empty cache, then
    [loadSessions()]. *)
Definition startup (f : File) : World :=
  loadSessions {| sessionsCache := ∅; sessionsFile := f |}.

End Store.

(** ** The endpoint *)

Section Endpoint.
Context `{DateCodec}.

(** [generateId]: the prefix followed by two fragments of random
    base-36 digits, [substring(2, 15)] of each draw. *)
Definition generateId (env : Env) : string :=
  "mcp-" +:+ substring 2 13 (random1 env) +:+ substring 2 13 (random2 env).

(** [createSession]. *)
Definition createSession (env : Env) (md : json) (w : World)
  : Response * World :=
  let id := generateId env in
  let now := clock env in
  let session :=
    {| conversationId := id;
       messages := [];
       metadata := md;
       createdAt := Instant now;
       updatedAt := Instant now |} in
  let w1 :=
    {| sessionsCache := <[id := session]> (sessionsCache w);
       sessionsFile := sessionsFile w |} in
  let w2 := saveSessions (write env) w1 in
  (Created id md (toISOString now) 0, w2).

(** [handleDirectChat], as the call of [streamText] that it makes: the
    request's messages ([messages || []]) go to the model as they are;
    the completion callback only logs.  The function is [async]: whether
    the call throws, which rejects its promise, is settled in
    [eventHandler]. *)
Definition handleDirectChat (msgs : option (list ChatMessage)) : Response :=
  DataStream (RawMessages (default [] msgs)) LogOnly.

(** [handleSessionChat], as the call of [streamText] that it makes:
    every message of the session is sent, in order; the completion
    callback appends the reply to this session.  The function is [async]
    as well. *)
Definition handleSessionChat (session : MCPSession) : Response :=
  let formattedMessages :=
    map (λ msg, {| role := role msg; content := content msg;
                   name := name msg |}) (messages session) in
  DataStream (History formattedMessages)
             (AppendReply (conversationId session)).

(** [getSessionInfo]; [toISOString] throws a [RangeError] on an invalid
    date. *)
Definition getSessionInfo (id : string) (w : World) : Exn + Response :=
  match sessionsCache w !! id with
  | None => inl (H3Error 404 ("Session not found: " +:+ id))
  | Some session =>
      match createdAt session, updatedAt session with
      | Instant c, Instant u =>
          inr (SessionInfo (conversationId session) (metadata session)
                           (toISOString c) (toISOString u)
                           (length (messages session)))
      | _, _ => inl RangeError
      end
  end.

(** [deleteSession]: the file is rewritten only when the id was
    there. *)
Definition deleteSession (env : Env) (id : string) (w : World)
  : Response * World :=
  let exists_ := bool_decide (is_Some (sessionsCache w !! id)) in
  let w1 :=
    {| sessionsCache := delete id (sessionsCache w);
       sessionsFile := sessionsFile w |} in
  let w2 := if exists_ then saveSessions (write env) w1 else w1 in
  (Deleted exists_
           (if exists_ then "Session deleted" else "Session not found"),
   w2).

(** The [chat] case of the handler (also the [default] one). *)
Definition chat (env : Env) (body : Body.t) (w : World)
  : (Exn + Response) * World :=
  match Body.data_conversationId body with
  | Some id =>
      if id =? "" then (inr (handleDirectChat (Body.messages body)), w)
      else
        match sessionsCache w !! id with
        | None => (inl (H3Error 404 ("Session not found: " +:+ id)), w)
        | Some session =>
            match Body.messages body with
            | None => (inl TypeError, w)   (* body.messages.length *)
            | Some msgs =>
                match last msgs with
                | None => (inl (H3Error 400 "Invalid message format"), w)
                | Some latestUserMessage =>
                    if negb (chat_role latestUserMessage =? "user")
                    then (inl (H3Error 400 "Invalid message format"), w)
                    else
                      let session' :=
                        set_updatedAt (Instant (clock env))
                          (push_message
                             {| role := user;
                                content := chat_content latestUserMessage;
                                name := None |} session) in
                      let w1 :=
                        {| sessionsCache :=
                             <[id := session']> (sessionsCache w);
                           sessionsFile := sessionsFile w |} in
                      let w2 := saveSessions (write env) w1 in
                      (inr (handleSessionChat session'), w2)
                end
            end
        end
  | None => (inr (handleDirectChat (Body.messages body)), w)
  end.

(** The [switch] on [body.action || "chat"], the body of the handler's
    [try] block. *)
Definition dispatch (env : Env) (body : Body.t) (w : World)
  : (Exn + Response) * World :=
  let action := or_default (Body.action body) "chat" in
  if action =? "create" then
    let '(r, w') := createSession env (metadata_or_empty (Body.metadata body)) w in
    (inr r, w')
  else if action =? "get" then
    match Body.conversationId body with
    | Some id =>
        if id =? ""
        then (inl (H3Error 400 "Missing conversationId for get action"), w)
        else (getSessionInfo id w, w)
    | None => (inl (H3Error 400 "Missing conversationId for get action"), w)
    end
  else if action =? "delete" then
    match Body.conversationId body with
    | Some id =>
        if id =? ""
        then (inl (H3Error 400 "Missing conversationId for delete action"), w)
        else let '(r, w') := deleteSession env id w in (inr r, w')
    | None =>
        (inl (H3Error 400 "Missing conversationId for delete action"), w)
    end
  else chat env body w.

(** The body of the event handler: the API key is checked first;
    whatever the [try] block throws is caught and replaced by one error.
    A chat is answered with the promise of its helper, which the handler
    does not await: [DataStream] describes the call that the helper
    makes, and [eventHandler] settles the promise. *)
Definition handler (env : Env) (body : Body.t) (w : World) : Reply * World :=
  if negb (truthy (openaiApiKey env))
  then (Fail 500 "Missing OpenAI API key", w)
  else
    match dispatch env body w with
    | (inr r, w') => (Respond r, w')
    | (inl error, w') => (Fail 500 "Failed to process request", w')
    end.

(** The completion callback, run when the model's stream ends with the
    full text of the reply.  The callback of [handleSessionChat] closes
    over the session object; here the object is designated by its id:
    the session stored under that id receives the message, and the cache
    is left as it is when the session has been deleted in the meantime
    (the object is then out of reach of the cache).  The file is rewritten
    in both cases.  This is the effect of the callback as long as the
    captured object, if still in the cache, is the one stored under its
    [conversationId]. *)
Definition onFinish (hook : FinishHook) (text : string)
    (out : WriteOutcome) (w : World) : World :=
  match hook with
  | LogOnly => w
  | AppendReply id =>
      let push :=
        push_message {| role := assistant; content := text; name := None |} in
      saveSessions out
        {| sessionsCache := alter push id (sessionsCache w);
           sessionsFile := sessionsFile w |}
  end.

End Endpoint.

(** ** A concrete codec

    Dates printed as the decimal number of milliseconds since the epoch.
    It meets [codec_lossless], so the requirement is satisfiable, and it
    lets the handler be run on concrete requests. *)

Definition millis_codec : DateCodec :=
  {| toISOString := λ t, NilEmpty.string_of_int (Z.to_int t);
     parseDate := λ s,
       match NilEmpty.int_of_string s with
       | Some d => Instant (Z.of_int d)
       | None => InvalidDate
       end |}.

(** ** Predicates used in the statements *)

(** Both timestamps of a session are valid dates. *)
Definition timestamps_valid (s : MCPSession) : Prop :=
  (∃ c, createdAt s = Instant c) ∧ (∃ u, updatedAt s = Instant u).

(** Every session of the cache has valid timestamps. *)
Definition store_valid (w : World) : Prop :=
  ∀ id s, sessionsCache w !! id = Some s → timestamps_valid s.

(** The metadata of every session of the cache are values that JSON
    carries unchanged. *)
Definition metadata_carried (w : World) : Prop :=
  ∀ id s, sessionsCache w !! id = Some s → json_carried (metadata s) = true.

(** A session with its metadata as the file gives them back. *)
Definition carried (s : MCPSession) : MCPSession :=
  {| conversationId := conversationId s;
     messages := messages s;
     metadata := json_roundtrip (metadata s);
     createdAt := createdAt s;
     updatedAt := updatedAt s |}.

(** The cache after a restart: the module is initialised again on the
    file that the last [saveSessions] of [w] wrote. *)
Definition restart `{DateCodec} (w : World) : World :=
  startup (sessionsFile (saveSessions WriteOk w)).

(** [String.prototype.includes]. *)
Fixpoint includes (hay needle : string) : bool :=
  String.prefix needle hay ||
  match hay with
  | EmptyString => false
  | String _ rest => includes rest needle
  end.

(** The environment with another outcome for the disk write. *)
Definition with_write (out : WriteOutcome) (env : Env) : Env :=
  {| openaiApiKey := openaiApiKey env; clock := clock env;
     random1 := random1 env; random2 := random2 env; write := out |}.

(** ** Requests of the clients

    The bodies that the pages and the sidebar post to the endpoint. *)

Definition create_request (md : option json) : Body.t :=
  Body.mk (Some "create") None md None None.

Definition get_request (id : string) : Body.t :=
  Body.mk (Some "get") (Some id) None None None.

Definition getMessages_request (id : string) : Body.t :=
  Body.mk (Some "getMessages") (Some id) None None None.

Definition delete_request (id : string) : Body.t :=
  Body.mk (Some "delete") (Some id) None None None.

Definition listSessions_request : Body.t :=
  Body.mk (Some "listSessions") None None None None.

(** A chat request of [useChat]: no action, the messages, and the
    session id under [data]. *)
Definition chat_request (id : string) (msgs : list ChatMessage) : Body.t :=
  Body.mk None None None (Some msgs) (Some id).

(** ** Sample data *)

(** A session of one completed round. *)
Definition hello_session : MCPSession :=
  {| conversationId := "mcp-abc123";
     messages := [ {| role := user; content := "hello"; name := None |};
                   {| role := assistant; content := "hi"; name := None |} ];
     metadata := JObj [("createdBy", JStr "web-client")];
     createdAt := Instant 1000;
     updatedAt := Instant 2000 |}.

Definition hello_world : World :=
  {| sessionsCache := {[ "mcp-abc123" := hello_session ]};
     sessionsFile := NoFile |}.

(** A configured environment. *)
Definition sample_env : Env :=
  {| openaiApiKey := Some "sk-test"; clock := 3000;
     random1 := "0.4fzyo82mvyr"; random2 := "0.k2j5x8c1q9w";
     write := WriteOk |}.

(** A session whose timestamps are invalid dates, and (below) a sessions
    file that produces it: its date strings are not dates. *)
Definition undated_session : MCPSession :=
  {| conversationId := "mcp-x"; messages := []; metadata := JObj [];
     createdAt := InvalidDate; updatedAt := InvalidDate |}.

Definition undated_world : World :=
  {| sessionsCache := {[ "mcp-x" := undated_session ]};
     sessionsFile := NoFile |}.

(** A [create] request whose metadata hold a numeral beyond the range of
    a double, [1e400] under the key [big], and the session that it
    creates on a fresh installation. *)
Definition big_request : Body.t :=
  create_request (Some (JObj [("big", JNum PositiveInfinity)])).

Definition big_session : MCPSession :=
  {| conversationId := "mcp-4fzyo82mvyrk2j5x8c1q9w"; messages := [];
     metadata := JObj [("big", JNum PositiveInfinity)];
     createdAt := Instant 3000; updatedAt := Instant 3000 |}.

(** A cache holding a session under the key [__proto__], as
    [loadSessions] builds it from a file with such an entry. *)
Definition proto_world : World :=
  {| sessionsCache :=
       {[ "__proto__" :=
            {| conversationId := "__proto__"; messages := [];
               metadata := JObj []; createdAt := Instant 1000;
               updatedAt := Instant 1000 |} ]};
     sessionsFile := NoFile |}.

Definition undated_file : File :=
  Document {[ "mcp-x" :=
    {| stored_conversationId := "mcp-x"; stored_messages := [];
       stored_metadata := JObj [];
       stored_createdAt := DateText "not a date";
       stored_updatedAt := DateText "not a date" |} ]}.

(** A sessions file whose first entry has no [createdAt] and a [null]
    [updatedAt], and whose next entry is not an object. *)
Definition dateless_file : File :=
  Interrupted {[ "mcp-x" :=
    {| stored_conversationId := "mcp-x"; stored_messages := [];
       stored_metadata := JObj [];
       stored_createdAt := DateMissing;
       stored_updatedAt := DateNull |} ]}.

(** ** Runs of the server

    What happens to the module state over time: requests are handled and
    the completion callbacks of earlier chat streams fire, in any
    order. *)

Inductive Event :=
| Request (env : Env) (body : Body.t)
| Completion (hook : FinishHook) (text : string) (out : WriteOutcome).

Definition step `{DateCodec} (e : Event) (w : World) : World :=
  match e with
  | Request env body => (handler env body w).2
  | Completion hook text out => onFinish hook text out w
  end.

Definition run `{DateCodec} (events : list Event) (w : World) : World :=
  foldl (λ w e, step e w) w events.

(** The disk write of an event, if it makes one, succeeds. *)
Definition write_succeeds (e : Event) : Prop :=
  match e with
  | Request env _ => write env = WriteOk
  | Completion _ _ out => out = WriteOk
  end.

(** The state of a fresh installation: no sessions file yet. *)
Definition fresh_install `{DateCodec} : World := startup NoFile.

(** A session as the handlers build it: stored under its own id, the id
    carries the prefix of [generateId], its timestamps are valid dates,
    and its history holds only unnamed user and assistant messages. *)
Definition session_wf (id : string) (s : MCPSession) : Prop :=
  conversationId s = id
  ∧ String.prefix "mcp-" id = true
  ∧ timestamps_valid s
  ∧ Forall (λ m, (role m = user ∨ role m = assistant) ∧ name m = None)
           (messages s).

Definition well_formed (w : World) : Prop :=
  ∀ id s, sessionsCache w !! id = Some s → session_wf id s.

(** A restart now would find the cache again in the file: every
    session, with its metadata as JSON carries them. *)
Definition durable `{DateCodec} (w : World) : Prop :=
  sessionsCache (startup (sessionsFile w)) = carried <$> sessionsCache w.

(** The metadata that the request would give to a new session are
    carried unchanged by JSON. *)
Definition carried_request (e : Event) : Prop :=
  match e with
  | Request _ body =>
      json_carried (metadata_or_empty (Body.metadata body)) = true
  | Completion _ _ _ => True
  end.

(** One round on a fresh installation: a session is created, a user
    message is sent on it, and the stream completes. *)
Definition sample_round : list Event :=
  [ Request sample_env (create_request None);
    Request sample_env
      (chat_request "mcp-4fzyo82mvyrk2j5x8c1q9w" [mkChat "user" "hello"]);
    Completion (AppendReply "mcp-4fzyo82mvyrk2j5x8c1q9w") "hi" WriteOk ].

Definition sample_round_session : MCPSession :=
  {| conversationId := "mcp-4fzyo82mvyrk2j5x8c1q9w";
     messages := [ {| role := user; content := "hello"; name := None |};
                   {| role := assistant; content := "hi"; name := None |} ];
     metadata := JObj [];
     createdAt := Instant 3000;
     updatedAt := Instant 3000 |}.

(** The sample cache over a file that a failed write has left
    unparsable. *)
Definition stale_world : World :=
  {| sessionsCache := sessionsCache hello_world; sessionsFile := Malformed |}.

(** The event is a [create] request. *)
Definition is_create (e : Event) : Prop :=
  match e with
  | Request _ body => or_default (Body.action body) "chat" = "create"
  | Completion _ _ _ => False
  end.

(** ** The promise of the chat helpers

    [handleDirectChat] and [handleSessionChat] are [async], and the
    handler returns their promise from inside its [try] block without
    awaiting it.  [handler] above gives what the body of the handler
    returns or throws, a chat being answered by the promise of the helper,
    described by the call of [streamText] that the helper makes.  When
    that call or [toDataStreamResponse] throws, the promise is rejected
    after the [try] block has been left: the [catch] of the handler does
    not see the error, which reaches the caller as it is.  Whether the
    SDK throws on a prompt, and with which message, is the SDK's matter:
    it is the parameter [refuses] below. *)

(** What the caller observes once the promise is settled. *)
Inductive Outcome :=
| Answered (r : Response)
| Failed (statusCode : Z) (message : string)   (* an error of createError *)
| Rejected (error : string).                   (* the error of the helper *)

(** The event handler with the promise that it returns settled. *)
Definition eventHandler `{DateCodec} (refuses : Prompt → option string)
    (env : Env) (body : Body.t) (w : World) : Outcome * World :=
  match handler env body w with
  | (Respond (DataStream prompt hook), w') =>
      match refuses prompt with
      | Some error => (Rejected error, w')
      | None => (Answered (DataStream prompt hook), w')
      end
  | (Respond r, w') => (Answered r, w')
  | (Fail statusCode message, w') => (Failed statusCode message, w')
  end.

(** An SDK that refuses an empty list of messages, and one that refuses
    every prompt. *)
Definition refuses_empty (prompt : Prompt) : option string :=
  match prompt with
  | RawMessages [] | History [] => Some "messages must not be empty"
  | _ => None
  end.

Definition refuses_all (prompt : Prompt) : option string :=
  Some "model not available".

(** * The pages

    The pure functions of [components/MCPSidebar.vue] and
    [pages/mcp/[id].vue].  Strings are taken as sequences of ASCII
    characters, on which the case conversions, the character counts and
    the white space of the runtime are the ones defined here; the
    statements about these functions say so with [ascii_only]. *)

Definition ascii_char (c : ascii) : bool := (nat_of_ascii c <? 128)%nat.

Fixpoint ascii_only (s : string) : bool :=
  match s with
  | EmptyString => true
  | String c rest => ascii_char c && ascii_only rest
  end.

Definition upper_char (c : ascii) : ascii :=
  let n := nat_of_ascii c in
  if ((97 <=? n) && (n <=? 122))%nat then ascii_of_nat (n - 32) else c.

Definition lower_char (c : ascii) : ascii :=
  let n := nat_of_ascii c in
  if ((65 <=? n) && (n <=? 90))%nat then ascii_of_nat (n + 32) else c.

Fixpoint map_chars (f : ascii → ascii) (s : string) : string :=
  match s with
  | EmptyString => EmptyString
  | String c rest => String (f c) (map_chars f rest)
  end.

(** [String.prototype.toUpperCase] and [toLowerCase]. *)
Definition toUpperCase : string → string := map_chars upper_char.
Definition toLowerCase : string → string := map_chars lower_char.

(** The decimal form of an integer, as a template literal prints it. *)
Definition decimal (n : Z) : string := NilEmpty.string_of_int (Z.to_int n).

(** ** The sidebar *)

(** An element of [sessions]. *)
Module Summary.
Record t := mk {
  id : string;
  date : string;
  messageCount : nat;
}.
End Summary.

(** [filteredSessions]: all sessions for an empty query, else those whose
    id includes the query, letter case apart. *)
Definition filteredSessions (searchQuery : string)
    (sessions : list Summary.t) : list Summary.t :=
  if searchQuery =? "" then sessions
  else
    let query := toLowerCase searchQuery in
    List.filter
      (λ session, includes (toLowerCase (Summary.id session)) query)
      sessions.

(** [formatSessionId]: eight characters in upper case, taken after the
    prefix when the id has it. *)
Definition formatSessionId (id : string) : string :=
  if String.prefix "mcp-" id
  then toUpperCase (substring 4 8 id)
  else toUpperCase (substring 0 8 id).

Section RelativeTime.
Context `{DateCodec}.

(** [Date.prototype.toLocaleDateString], which depends on the locale of
    the browser. *)
Variable toLocaleDateString : Date → string.

(** [formatRelativeTime], [now] being the instant of [new Date()].  With
    an invalid date every difference is NaN and every comparison false,
    which leaves the last [return]. *)
Definition formatRelativeTime (dateString : string) (now : Z) : string :=
  match parseDate dateString with
  | Instant t =>
      let diffMs := now - t in
      let diffMins := diffMs / (1000 * 60) in
      let diffHours := diffMs / (1000 * 60 * 60) in
      let diffDays := diffMs / (1000 * 60 * 60 * 24) in
      if (diffMins <? 1)%Z then "刚刚"
      else if (diffMins <? 60)%Z then decimal diffMins +:+ "分钟前"
      else if (diffHours <? 24)%Z then decimal diffHours +:+ "小时前"
      else if (diffDays <? 7)%Z then decimal diffDays +:+ "天前"
      else toLocaleDateString (Instant t)
  | InvalidDate => toLocaleDateString InvalidDate
  end.

End RelativeTime.

(** Sample sessions of the sidebar. *)
Definition sample_sessions : list Summary.t :=
  [ Summary.mk "mcp-4fzyo82mvyrk2j5x8c1q9w" "1000" 2;
    Summary.mk "mcp-abc123" "2000" 0;
    Summary.mk "mcp-abd999" "3000" 5 ].

(** ** The session page *)

(** A message of the chat as [useChat] holds it. *)
Record UIMessage := mkUI {
  ui_id : string;
  ui_role : string;
  ui_content : string;
}.

(** The system message that the page puts in front of a chat. *)
Definition system_prompt : UIMessage :=
  {| ui_id := "system-1"; ui_role := "system";
     ui_content := "You are a helpful assistant." |}.

(** [sessionMessages.map((msg, index) => ...)], from a given index on. *)
Fixpoint formatFrom (index : nat) (sessionMessages : list ChatMessage)
  : list UIMessage :=
  match sessionMessages with
  | [] => []
  | msg :: rest =>
      {| ui_id := "msg-" +:+ decimal (Z.of_nat index);
         ui_role := chat_role msg;
         ui_content := chat_content msg |} :: formatFrom (S index) rest
  end.

(** What the route watcher passes to [setMessages] once the history of a
    session is loaded; [None] when it does not call it, the history being
    empty. *)
Definition loadedMessages (sessionMessages : list ChatMessage)
  : option (list UIMessage) :=
  match sessionMessages with
  | [] => None
  | _ :: _ =>
      let formattedMessages := formatFrom 0 sessionMessages in
      if existsb (λ m, ui_role m =? "system") formattedMessages
      then Some formattedMessages
      else Some (system_prompt :: formattedMessages)
  end.

(** *** Links in a message

    [formatMessageContent] replaces every match of the regular expression
    [(https?:\/\/[^\s]+)] by an anchor on the matched text.  The
    expression is read as a scanner: a match starts where the text reads
    [http://] or [https://] followed by at least one character that is
    not white space, and extends over all such characters that follow;
    the search goes on after the match. *)

(** The class [\s] on ASCII: tab, line feed, vertical tab, form feed,
    carriage return and space. *)
Definition is_space (c : ascii) : bool :=
  let n := nat_of_ascii c in
  ((n =? 9) || (n =? 10) || (n =? 11) || (n =? 12) || (n =? 13)
   || (n =? 32))%nat.

(** What [[^\s]+] takes at the start of [s], if not empty. *)
Fixpoint non_space_run (s : string) : string :=
  match s with
  | EmptyString => EmptyString
  | String c rest =>
      if is_space c then EmptyString else String c (non_space_run rest)
  end.

(** [s] without its first [n] characters. *)
Fixpoint drop_chars (n : nat) (s : string) : string :=
  match n, s with
  | O, _ => s
  | S k, String _ rest => drop_chars k rest
  | S _, EmptyString => EmptyString
  end.

(** The match of the expression at the very start of [s], if there is
    one.  After [https] without a following [://] and a character that is
    not white space, the expression has no other way to match there. *)
Definition url_at (s : string) : option string :=
  if String.prefix "https://" s then
    match non_space_run (drop_chars 8 s) with
    | EmptyString => None
    | run => Some ("https://" +:+ run)
    end
  else if String.prefix "http://" s then
    match non_space_run (drop_chars 7 s) with
    | EmptyString => None
    | run => Some ("http://" +:+ run)
    end
  else None.

(** The double quote. *)
Definition dquote : string := String "034"%char EmptyString.

(** The replacement, [$1] being the matched text. *)
Definition anchor (url : string) : string :=
  "<a href=" +:+ dquote +:+ url +:+ dquote
  +:+ " target=" +:+ dquote +:+ "_blank" +:+ dquote
  +:+ " class=" +:+ dquote +:+ "text-blue-500 hover:underline" +:+ dquote
  +:+ ">" +:+ url +:+ "</a>".

(** [content.replace(urlRegex, ...)]: [skip] counts the characters still
    to pass over, being part of the match just replaced. *)
Fixpoint replace_urls (skip : nat) (s : string) : string :=
  match s with
  | EmptyString => EmptyString
  | String c rest =>
      match skip with
      | S k => replace_urls k rest
      | O =>
          match url_at s with
          | Some url =>
              anchor url +:+ replace_urls (String.length url - 1) rest
          | None => String c (replace_urls 0 rest)
          end
      end
  end.

(** The characters of a string, in order. *)
Fixpoint chars (s : string) : list ascii :=
  match s with
  | EmptyString => []
  | String c rest => c :: chars rest
  end.

(** [formatMessageContent]. *)
Definition formatMessageContent (content : string) : string :=
  if content =? "" then "" else replace_urls 0 content.

(** * Properties *)

(** ** JSON values *)

Lemma json_induction (P : json → Prop) :
  P JNull →
  (∀ b, P (JBool b)) →
  (∀ n, P (JNum n)) →
  (∀ s, P (JStr s)) →
  (∀ items, Forall P items → P (JArr items)) →
  (∀ fields, Forall (λ field, P field.2) fields → P (JObj fields)) →
  ∀ v, P v.
Proof.
  intros Hnull Hbool Hnum Hstr Harr Hobj. fix IH 1.
  intros [ | b | n | s | items | fields].
  - exact Hnull.
  - apply Hbool.
  - apply Hnum.
  - apply Hstr.
  - apply Harr. revert items. fix IHitems 1.
    intros [|x items]; constructor; [apply IH | apply IHitems].
  - apply Hobj. revert fields. fix IHfields 1.
    intros [|[key x] fields]; constructor; [apply IH | apply IHfields].
Qed.

(** The values that the round trip leaves as they are are those that
    hold no infinity and no negative zero. *)
Lemma json_roundtrip_carried (v : json) :
  json_roundtrip v = v ↔ json_carried v = true.
Proof.
  induction v as [ | b | n | s | items IH | fields IH] using json_induction;
    simpl; try done.
  - destruct n; simpl; split; (done || discriminate).
  - split.
    + intros [= Heq]. apply forallb_forall. intros x Hx.
      rewrite Forall_forall in IH. apply IH; [by apply list_elem_of_In|].
      clear IH. induction items as [|y items IHl]; [by destruct Hx|].
      simpl in Heq. injection Heq as Hy Hrest.
      destruct Hx as [<- | Hx]; [done|]. by apply IHl.
    + intros Hall. f_equal.
      induction items as [|y items IHl]; [done|].
      simpl in Hall. apply andb_true_iff in Hall as [Hy Hrest].
      apply Forall_cons in IH as [IHy IH].
      simpl. f_equal; [by apply IHy | by apply IHl].
  - split.
    + intros [= Heq].
      induction fields as [|[key y] fields IHl]; [done|].
      simpl in Heq. injection Heq as Hy Hrest.
      apply Forall_cons in IH as [IHy IH]. simpl.
      apply andb_true_iff. split; [by apply IHy | by apply IHl].
    + intros Hall. f_equal.
      induction fields as [|[key y] fields IHl]; [done|].
      simpl in Hall. apply andb_true_iff in Hall as [Hy Hrest].
      apply Forall_cons in IH as [IHy IH].
      simpl. f_equal; [f_equal; by apply IHy | by apply IHl].
Qed.

(** What the round trip gives is carried unchanged from then on. *)
Lemma json_roundtrip_idem (v : json) :
  json_roundtrip (json_roundtrip v) = json_roundtrip v.
Proof.
  induction v as [ | b | n | s | items IH | fields IH] using json_induction;
    simpl; try done.
  - by destruct n.
  - f_equal. induction items as [|y items IHl]; [done|].
    apply Forall_cons in IH as [IHy IH].
    simpl. f_equal; [exact IHy | by apply IHl].
  - f_equal. induction fields as [|[key y] fields IHl]; [done|].
    apply Forall_cons in IH as [IHy IH].
    simpl. f_equal; [f_equal; exact IHy | by apply IHl].
Qed.

(** ** The store *)

Section StoreFacts.
Context `{DateCodec}.

(** The loop of [saveSessions] copies the cache, the key [__proto__]
    apart. *)
Lemma sessionsData_copy (m : gmap string MCPSession) :
  map_fold (λ id session acc,
              if id =? "__proto__" then acc else <[id := session]> acc) ∅ m
  = delete "__proto__" m.
Proof.
  induction m as [|id s m Hid Hfirst IH] using map_first_key_ind.
  - by rewrite map_fold_empty, delete_empty.
  - rewrite map_fold_insert_first_key by done. rewrite IH.
    destruct (String.eqb_spec id "__proto__") as [->|Hne].
    + by rewrite delete_insert_eq.
    + by rewrite delete_insert_ne.
Qed.

(** The loop of [loadSessions] overrides the cache with the revived
    entries of the file. *)
Lemma loadSessions_fold (c : gmap string MCPSession)
    (d : gmap string StoredSession) :
  map_fold (λ id session acc, <[id := revive session]> acc) c d
  = (revive <$> d) ∪ c.
Proof.
  induction d as [|id s d Hid Hfirst IH] using map_first_key_ind.
  - by rewrite map_fold_empty, fmap_empty, (left_id_L ∅ (∪)).
  - rewrite map_fold_insert_first_key by done.
    by rewrite IH, fmap_insert, insert_union_l.
Qed.

Lemma saveSessions_cache out w :
  sessionsCache (saveSessions out w) = sessionsCache w.
Proof. by destruct out. Qed.

Lemma saveSessions_file_ok w :
  sessionsFile (saveSessions WriteOk w)
  = Document (stringify <$> delete "__proto__" (sessionsCache w)).
Proof. unfold saveSessions. simpl. by rewrite sessionsData_copy. Qed.

Lemma saveSessions_file_fails residue w :
  sessionsFile (saveSessions (WriteFails residue) w) = residue.
Proof. done. Qed.

Lemma startup_document d :
  sessionsCache (startup (Document d)) = revive <$> d.
Proof.
  unfold startup, loadSessions. simpl.
  by rewrite loadSessions_fold, (right_id_L ∅ (∪)).
Qed.

(** A restart revives what was stringified, session by session. *)
Lemma restart_cache w :
  sessionsCache (restart w)
  = (λ s, revive (stringify s)) <$> delete "__proto__" (sessionsCache w).
Proof.
  unfold restart. rewrite saveSessions_file_ok, startup_document.
  by rewrite <- map_fmap_compose.
Qed.

Lemma restart_lookup w id :
  id ≠ "__proto__" →
  sessionsCache (restart w) !! id
  = (λ s, revive (stringify s)) <$> (sessionsCache w !! id).
Proof.
  intros Hid. by rewrite restart_cache, lookup_fmap, lookup_delete_ne.
Qed.

Lemma restart_lookup_proto w : sessionsCache (restart w) !! "__proto__" = None.
Proof. by rewrite restart_cache, lookup_fmap, lookup_delete_eq. Qed.

Lemma newDate_toJSON_valid t :
  codec_lossless → newDate (toJSON (Instant t)) = Instant t.
Proof. intros Hc. simpl. apply Hc. Qed.

(** With valid timestamps a session comes back with its metadata as
    JSON carries them, and is otherwise the same. *)
Lemma revive_stringify_valid s :
  codec_lossless → timestamps_valid s → revive (stringify s) = carried s.
Proof.
  intros Hc [[c Hcr] [u Hup]]. destruct s as [i ms md cr up].
  simpl in *. subst. unfold revive, stringify, carried, writtenDate. simpl.
  by rewrite !Hc.
Qed.

Lemma carried_same s : json_carried (metadata s) = true → carried s = s.
Proof.
  intros Hmd. destruct s as [i ms md cr up]. unfold carried. simpl in *.
  f_equal. by apply json_roundtrip_carried.
Qed.

Lemma revive_stringify s :
  codec_lossless → timestamps_valid s → json_carried (metadata s) = true →
  revive (stringify s) = s.
Proof.
  intros Hc Hts Hmd. by rewrite revive_stringify_valid, carried_same.
Qed.

(** An invalid date is written as [null] and read back as the epoch. *)
Lemma newDate_toJSON_invalid :
  newDateOf (writtenDate InvalidDate) = Instant 0.
Proof. done. Qed.

(** A session that comes back as it was had valid timestamps and
    metadata that JSON carries. *)
Lemma revive_stringify_same s :
  revive (stringify s) = s →
  timestamps_valid s ∧ json_carried (metadata s) = true.
Proof.
  destruct s as [i ms md cr up]. unfold revive, stringify. simpl.
  intros [= Hmd Hcr Hup]. split; [split|].
  - destruct cr as [c|]; [by exists c | discriminate Hcr].
  - destruct up as [u|]; [by exists u | discriminate Hup].
  - by apply json_roundtrip_carried.
Qed.

End StoreFacts.

(** ** Round trip through the file *)

Lemma millis_codec_lossless : codec_lossless (H := millis_codec).
Proof.
  intros t. unfold parseDate, toISOString, millis_codec.
  by rewrite NilEmpty.isi, DecimalZ.of_to.
Qed.

(** The messages and the id of a session survive a restart in every
    case, under every key but [__proto__]. *)
Lemma restart_keeps_messages `{DateCodec} (w : World) (id : string) :
  id ≠ "__proto__" →
  messages <$> (sessionsCache (restart w) !! id)
  = messages <$> (sessionsCache w !! id)
  ∧ conversationId <$> (sessionsCache (restart w) !! id)
    = conversationId <$> (sessionsCache w !! id).
Proof.
  intros Hid. rewrite restart_lookup by done.
  by destruct (sessionsCache w !! id).
Qed.

(** The round trip is the identity exactly on the caches that have no
    key [__proto__], only valid timestamps and only metadata that JSON
    carries. *)
Lemma restart_same `{DateCodec} (w : World) :
  codec_lossless →
  sessionsCache (restart w) = sessionsCache w
  ↔ sessionsCache w !! "__proto__" = None
    ∧ store_valid w ∧ metadata_carried w.
Proof.
  intros Hc. split.
  - intros Heq. split; [by rewrite <- Heq, restart_lookup_proto|].
    assert (Hall : ∀ id s, sessionsCache w !! id = Some s →
                           revive (stringify s) = s).
    { intros id s Hs.
      assert (Hid : id ≠ "__proto__").
      { intros ->. rewrite <- Heq, restart_lookup_proto in Hs.
        discriminate Hs. }
      pose proof (restart_lookup w id Hid) as Hl.
      rewrite Heq, Hs in Hl. simpl in Hl. by injection Hl as <-. }
    split; intros id s Hs; by destruct (revive_stringify_same s (Hall id s Hs)).
  - intros (Hproto & Hvalid & Hmd). rewrite restart_cache.
    rewrite delete_id by done.
    apply map_eq. intros id. rewrite lookup_fmap.
    destruct (sessionsCache w !! id) as [s|] eqn:Hs; [|done].
    simpl. f_equal.
    apply revive_stringify; [done | by eapply Hvalid | by eapply Hmd].
Qed.

(** C6 (as amended): saving a session map (of sessions as [MCPSession]
    declares them, the contents of the messages being strings) and
    loading the written file into a fresh process reproduces the
    identical map exactly when the map has no key [__proto__], all its
    timestamps are valid dates and its metadata hold no infinite number
    and no negative zero (the runtime parsing the date strings it prints
    back to the same instant).  For every map, each session stored under
    another key than [__proto__] comes back under its key with its
    messages in the same order with the same roles and contents, and
    with the instants of its timestamps when they are valid dates. *)
Theorem C6_save_load_roundtrip `{DateCodec} (w : World) :
  codec_lossless →
  (sessionsCache (restart w) = sessionsCache w
   ↔ sessionsCache w !! "__proto__" = None
     ∧ store_valid w ∧ metadata_carried w)
  ∧ (∀ id s, id ≠ "__proto__" → sessionsCache w !! id = Some s →
       ∃ s', sessionsCache (restart w) !! id = Some s'
             ∧ messages s' = messages s
             ∧ (timestamps_valid s →
                createdAt s' = createdAt s ∧ updatedAt s' = updatedAt s)).
Proof.
  intros Hc. split; [by apply restart_same|].
  intros id s Hid Hs. exists (revive (stringify s)).
  rewrite restart_lookup, Hs by done.
  split; [done|]. split; [done|].
  intros Hts. by rewrite revive_stringify_valid.
Qed.

Lemma hello_world_store_valid : store_valid hello_world.
Proof.
  intros id s Hs. unfold hello_world in Hs. simpl in Hs.
  apply lookup_singleton_Some in Hs as [_ <-].
  split; eexists; reflexivity.
Qed.

Lemma hello_world_metadata_carried : metadata_carried hello_world.
Proof.
  intros id s Hs. unfold hello_world in Hs. simpl in Hs.
  by apply lookup_singleton_Some in Hs as [_ <-].
Qed.

Lemma C6_save_load_roundtrip_witness :
  codec_lossless (H := millis_codec)
  ∧ (sessionsCache hello_world !! "__proto__" = None
     ∧ store_valid hello_world ∧ metadata_carried hello_world)
  ∧ sessionsCache (restart (H := millis_codec) hello_world)
    = sessionsCache hello_world.
Proof.
  assert (Hok : sessionsCache hello_world !! "__proto__" = None
                ∧ store_valid hello_world ∧ metadata_carried hello_world).
  { split; [by apply lookup_singleton_ne|].
    split; [apply hello_world_store_valid|apply hello_world_metadata_carried]. }
  split; [apply millis_codec_lossless|]. split; [exact Hok|].
  apply (proj1 (C6_save_load_roundtrip (H := millis_codec) hello_world
                  millis_codec_lossless)), Hok.
Defined.

(** The session that [big_request] creates on a fresh installation. *)
Lemma big_request_creates :
  sessionsCache (handler (H := millis_codec) sample_env big_request
                   (startup (H := millis_codec) NoFile)).2
  = {[ "mcp-4fzyo82mvyrk2j5x8c1q9w" := big_session ]}.
Proof. vm_compute. reflexivity. Qed.

(** C6 (as stated) fails on a map that one [create] request builds on a
    fresh installation, with valid timestamps: the metadata hold an
    infinity, which is written as [null], and the session comes back with
    other metadata, although the codec is lossless. *)
Lemma C6_counterexample_infinite_metadata :
  let w := (handler (H := millis_codec) sample_env big_request
              (startup (H := millis_codec) NoFile)).2 in
  codec_lossless (H := millis_codec)
  ∧ store_valid w
  ∧ sessionsCache w !! "mcp-4fzyo82mvyrk2j5x8c1q9w" = Some big_session
  ∧ metadata <$> (sessionsCache (restart (H := millis_codec) w)
                    !! "mcp-4fzyo82mvyrk2j5x8c1q9w")
    = Some (JObj [("big", JNull)])
  ∧ sessionsCache (restart (H := millis_codec) w) ≠ sessionsCache w.
Proof.
  intros w.
  assert (Hw : sessionsCache w = {[ "mcp-4fzyo82mvyrk2j5x8c1q9w" := big_session ]})
    by apply big_request_creates.
  assert (Hmd : metadata <$> (sessionsCache (restart (H := millis_codec) w)
                                !! "mcp-4fzyo82mvyrk2j5x8c1q9w")
                = Some (JObj [("big", JNull)])).
  { rewrite restart_lookup by discriminate.
    by rewrite Hw, lookup_singleton_eq. }
  split; [apply millis_codec_lossless|]. split.
  { intros id s. rewrite Hw. intros [_ <-]%lookup_singleton_Some.
    split; eexists; reflexivity. }
  split; [by rewrite Hw, lookup_singleton_eq|]. split; [exact Hmd|].
  intros Heq. rewrite Heq, Hw, lookup_singleton_eq in Hmd. discriminate Hmd.
Qed.

(** A map with an invalid date is what [loadSessions] builds from a file
    whose date strings do not parse. *)
Lemma startup_undated_file :
  sessionsCache (startup (H := millis_codec) undated_file)
  = sessionsCache undated_world.
Proof.
  unfold undated_file. rewrite startup_document, map_fmap_singleton.
  reflexivity.
Qed.

(** Two more maps on which the round trip is not the identity: a session
    holding an invalid date comes back at the epoch, and a session stored
    under the key [__proto__] does not come back. *)
Lemma restart_invalid_date :
  sessionsCache (restart (H := millis_codec) undated_world)
  ≠ sessionsCache undated_world.
Proof.
  rewrite restart_cache. intros Heq.
  apply (f_equal (λ m, createdAt <$> m !! "mcp-x")) in Heq.
  unfold undated_world in Heq. simpl in Heq.
  rewrite lookup_fmap, lookup_delete_ne, lookup_singleton_eq in Heq
    by discriminate.
  discriminate Heq.
Qed.

Lemma restart_drops_proto :
  store_valid proto_world ∧ metadata_carried proto_world
  ∧ sessionsCache (restart (H := millis_codec) proto_world) = ∅.
Proof.
  split; [|split].
  - intros id s Hs. unfold proto_world in Hs. simpl in Hs.
    apply lookup_singleton_Some in Hs as [_ <-]. split; eexists; reflexivity.
  - intros id s Hs. unfold proto_world in Hs. simpl in Hs.
    by apply lookup_singleton_Some in Hs as [_ <-].
  - rewrite restart_cache. unfold proto_world. simpl.
    by rewrite delete_singleton_eq, fmap_empty.
Qed.

(** ** The API key guard *)

Section EndpointFacts.
Context `{DateCodec}.

Lemma handler_configured env body w :
  truthy (openaiApiKey env) = true →
  handler env body w =
    match dispatch env body w with
    | (inr r, w') => (Respond r, w')
    | (inl _, w') => (Fail 500 "Failed to process request", w')
    end.
Proof. intros Hk. unfold handler. by rewrite Hk. Qed.

(** An action that is none of [create], [get], [delete] takes the
    [default] branch of the switch. *)
Lemma dispatch_default env body w :
  or_default (Body.action body) "chat" ≠ "create" →
  or_default (Body.action body) "chat" ≠ "get" →
  or_default (Body.action body) "chat" ≠ "delete" →
  dispatch env body w = chat env body w.
Proof.
  intros Hc Hg Hd. unfold dispatch.
  apply String.eqb_neq in Hc, Hg, Hd. by rewrite Hc, Hg, Hd.
Qed.

Lemma getSessionInfo_absent id w :
  sessionsCache w !! id = None →
  getSessionInfo id w = inl (H3Error 404 ("Session not found: " +:+ id)).
Proof. intros Hid. unfold getSessionInfo. by rewrite Hid. Qed.

Lemma dispatch_get id env w :
  id ≠ "" → dispatch env (get_request id) w = (getSessionInfo id w, w).
Proof.
  intros Hid. unfold dispatch. simpl.
  apply String.eqb_neq in Hid. by rewrite Hid.
Qed.

Lemma dispatch_delete id env w :
  id ≠ "" →
  dispatch env (delete_request id) w
  = (inr (deleteSession env id w).1, (deleteSession env id w).2).
Proof.
  intros Hid. unfold dispatch. simpl.
  apply String.eqb_neq in Hid. by rewrite Hid.
Qed.

End EndpointFacts.

Lemma prefix_refl (s : string) : String.prefix s s = true.
Proof.
  induction s as [|a s IH]; [done|]. simpl.
  by destruct (ascii_dec a a).
Qed.

Lemma includes_app (pre s : string) : includes (pre +:+ s) s = true.
Proof.
  induction pre as [|a pre IH]; simpl.
  - destruct s as [|a s]; [done|].
    change (String.prefix (String a s) (String a s) || includes s (String a s) = true).
    by rewrite prefix_refl.
  - rewrite IH. apply orb_true_r.
Qed.

(** C10: without an API key in the runtime configuration every request,
    whatever its action, fails with status 500 before anything is
    dispatched, and the cache and the file are left as they were. *)
Theorem C10_missing_api_key `{DateCodec} env body w :
  truthy (openaiApiKey env) = false →
  handler env body w = (Fail 500 "Missing OpenAI API key", w).
Proof. intros Hk. unfold handler. by rewrite Hk. Qed.

Lemma C10_missing_api_key_witness :
  truthy (openaiApiKey (mkEnv None 3000 "0.1" "0.2" WriteOk)) = false
  ∧ handler (H := millis_codec) (mkEnv None 3000 "0.1" "0.2" WriteOk)
            (delete_request "mcp-abc123") hello_world
    = (Fail 500 "Missing OpenAI API key", hello_world).
Proof.
  split; [reflexivity|].
  apply (C10_missing_api_key (H := millis_codec)). reflexivity.
Defined.

(** ** Actions the switch does not know *)

(** C1: what the code does with a [getMessages] request.  The switch has
    no such case, so the request takes the [default] chat branch; the
    body carries no [data.conversationId], hence the reply is the stream
    of a direct chat on an empty message list, for an id in the store as
    for one that is not: neither the session's messages nor a 404, and
    the store is not consulted. *)
Theorem C1_getMessages_takes_chat_branch `{DateCodec} env w id :
  truthy (openaiApiKey env) = true →
  handler env (getMessages_request id) w
  = (Respond (DataStream (RawMessages []) LogOnly), w).
Proof. intros Hk. unfold handler. rewrite Hk. reflexivity. Qed.

Lemma C1_getMessages_takes_chat_branch_witness :
  truthy (openaiApiKey sample_env) = true
  ∧ sessionsCache hello_world !! "mcp-abc123" = Some hello_session
  ∧ handler (H := millis_codec) sample_env
            (getMessages_request "mcp-abc123") hello_world
    = (Respond (DataStream (RawMessages []) LogOnly), hello_world).
Proof.
  split; [reflexivity|]. split; [apply lookup_singleton_eq|].
  apply (C1_getMessages_takes_chat_branch (H := millis_codec)). reflexivity.
Defined.

(** C2: what the code does with a [listSessions] request.  It takes the
    [default] chat branch as well: the reply is the stream of a direct
    chat on an empty message list, whatever the store holds, and no
    summary of any session is returned. *)
Theorem C2_listSessions_takes_chat_branch `{DateCodec} env w :
  truthy (openaiApiKey env) = true →
  handler env listSessions_request w
  = (Respond (DataStream (RawMessages []) LogOnly), w).
Proof. intros Hk. unfold handler. rewrite Hk. reflexivity. Qed.

Lemma C2_listSessions_takes_chat_branch_witness :
  truthy (openaiApiKey sample_env) = true
  ∧ size (sessionsCache hello_world) = 1%nat
  ∧ handler (H := millis_codec) sample_env listSessions_request hello_world
    = (Respond (DataStream (RawMessages []) LogOnly), hello_world).
Proof.
  split; [reflexivity|]. split; [apply map_size_singleton|].
  apply (C2_listSessions_takes_chat_branch (H := millis_codec)). reflexivity.
Defined.

(** ** Errors raised inside the try block *)

(** C3: what the code does for [get] on an absent id.  [getSessionInfo]
    raises the 404 error whose message includes the id, but the raise
    happens inside the handler's [try], whose [catch] replaces every
    error: the caller receives status 500 with a fixed message. *)
Theorem C3_get_absent_id_is_500 `{DateCodec} env w id :
  truthy (openaiApiKey env) = true →
  id ≠ "" →
  sessionsCache w !! id = None →
  getSessionInfo id w = inl (H3Error 404 ("Session not found: " +:+ id))
  ∧ includes ("Session not found: " +:+ id) id = true
  ∧ handler env (get_request id) w = (Fail 500 "Failed to process request", w).
Proof.
  intros Hk Hid Habs. split; [by apply getSessionInfo_absent|].
  split; [apply includes_app|].
  rewrite handler_configured, dispatch_get by done.
  by rewrite getSessionInfo_absent.
Qed.

Lemma C3_get_absent_id_is_500_witness :
  includes "Failed to process request" "mcp-never" = false
  ∧ getSessionInfo (H := millis_codec) "mcp-never" hello_world
    = inl (H3Error 404 "Session not found: mcp-never")
  ∧ includes "Session not found: mcp-never" "mcp-never" = true
  ∧ handler (H := millis_codec) sample_env (get_request "mcp-never") hello_world
    = (Fail 500 "Failed to process request", hello_world).
Proof.
  split; [reflexivity|].
  apply (C3_get_absent_id_is_500 (H := millis_codec)
           sample_env hello_world "mcp-never").
  - reflexivity.
  - discriminate.
  - apply lookup_singleton_ne. discriminate.
Defined.

(** ** Chat on a session *)

Lemma formattedMessages_same (l : list Message) :
  map (λ msg, {| role := role msg; content := content msg;
                 name := name msg |}) l = l.
Proof.
  induction l as [|[r c n] l IH]; [done|]. simpl. by rewrite IH.
Qed.

Lemma handleSessionChat_prompt (session : MCPSession) :
  handleSessionChat session
  = DataStream (History (messages session))
               (AppendReply (conversationId session)).
Proof. unfold handleSessionChat. by rewrite formattedMessages_same. Qed.

Lemma dispatch_chat `{DateCodec} env id msgs w :
  dispatch env (chat_request id msgs) w = chat env (chat_request id msgs) w.
Proof. reflexivity. Qed.

(** A chat request whose newest message is missing or is not a user's
    raises the 400 error inside the [try] block and changes nothing. *)
Lemma chat_invalid_newest `{DateCodec} env w id session msgs :
  id ≠ "" →
  sessionsCache w !! id = Some session →
  last msgs = None ∨ (∃ m, last msgs = Some m ∧ chat_role m ≠ "user") →
  chat env (chat_request id msgs) w
  = (inl (H3Error 400 "Invalid message format"), w).
Proof.
  intros Hid Hs Hbad. unfold chat. simpl.
  apply String.eqb_neq in Hid. rewrite Hid, Hs.
  destruct Hbad as [-> | (m & -> & Hrole)]; [done|].
  apply String.eqb_neq in Hrole. by rewrite Hrole.
Qed.

(** A chat request whose newest message is a user's appends it, stamps
    the session, saves, and submits the session's messages. *)
Lemma chat_user_turn `{DateCodec} env w id session msgs m :
  id ≠ "" →
  sessionsCache w !! id = Some session →
  last msgs = Some m →
  chat_role m = "user" →
  let turn := {| role := user; content := chat_content m; name := None |} in
  let session' :=
    set_updatedAt (Instant (clock env)) (push_message turn session) in
  chat env (chat_request id msgs) w
  = (inr (DataStream (History (messages session ++ [turn]))
                     (AppendReply (conversationId session))),
     saveSessions (write env)
       {| sessionsCache := <[id := session']> (sessionsCache w);
          sessionsFile := sessionsFile w |}).
Proof.
  intros Hid Hs Hlast Hrole. unfold chat. simpl.
  apply String.eqb_neq in Hid. rewrite Hid, Hs, Hlast.
  apply String.eqb_eq in Hrole. rewrite Hrole. simpl.
  by rewrite handleSessionChat_prompt.
Qed.

(** C4: what the code does with a chat request on an existing session.
    When the newest inbound message is missing or is not a user's, the
    session and the file are unchanged, but the 400 error raised for it
    is caught by the handler and the caller receives status 500.
    Otherwise the message is appended as a user message, the session is
    stamped with the current instant, the store is written to the file
    (when the write succeeds; all of it but a session under the key
    [__proto__], which [saveSessions] never writes) and the session's
    full history, the new message last, is what is submitted to the
    model. *)
Theorem C4_chat_on_existing_session `{DateCodec} env w id session msgs :
  truthy (openaiApiKey env) = true →
  id ≠ "" →
  sessionsCache w !! id = Some session →
  (last msgs = None ∨ (∃ m, last msgs = Some m ∧ chat_role m ≠ "user") →
   handler env (chat_request id msgs) w
   = (Fail 500 "Failed to process request", w))
  ∧ (∀ m, last msgs = Some m → chat_role m = "user" →
     let turn := {| role := user; content := chat_content m; name := None |} in
     ∃ w',
       handler env (chat_request id msgs) w
       = (Respond (DataStream (History (messages session ++ [turn]))
                              (AppendReply (conversationId session))), w')
       ∧ sessionsCache w' !! id
         = Some (set_updatedAt (Instant (clock env))
                   (push_message turn session))
       ∧ (∀ j, j ≠ id → sessionsCache w' !! j = sessionsCache w !! j)
       ∧ (write env = WriteOk →
          sessionsFile w'
          = Document (stringify <$> delete "__proto__" (sessionsCache w')))).
Proof.
  intros Hk Hid Hs. split.
  - intros Hbad. rewrite handler_configured, dispatch_chat by done.
    by rewrite (chat_invalid_newest env w id session msgs).
  - intros m Hlast Hrole turn. eexists.
    rewrite handler_configured, dispatch_chat by done.
    rewrite (chat_user_turn env w id session msgs m) by done.
    split; [reflexivity|].
    rewrite saveSessions_cache. simpl.
    split; [apply lookup_insert_eq|].
    split; [intros j Hj; by apply lookup_insert_ne|].
    intros ->. by rewrite saveSessions_file_ok.
Qed.

Lemma C4_chat_on_existing_session_witness :
  truthy (openaiApiKey sample_env) = true
  ∧ sessionsCache hello_world !! "mcp-abc123" = Some hello_session
  ∧ handler (H := millis_codec) sample_env
      (chat_request "mcp-abc123" [mkChat "user" "hello"; mkChat "assistant" "hi"])
      hello_world
    = (Fail 500 "Failed to process request", hello_world)
  ∧ handler (H := millis_codec) sample_env
      (chat_request "mcp-abc123" []) hello_world
    = (Fail 500 "Failed to process request", hello_world)
  ∧ ∃ w',
      handler (H := millis_codec) sample_env
        (chat_request "mcp-abc123" [mkChat "user" "and then?"]) hello_world
      = (Respond
           (DataStream
              (History
                 [ {| role := user; content := "hello"; name := None |};
                   {| role := assistant; content := "hi"; name := None |};
                   {| role := user; content := "and then?"; name := None |} ])
              (AppendReply "mcp-abc123")), w')
      ∧ updatedAt <$> (sessionsCache w' !! "mcp-abc123") = Some (Instant 3000).
Proof.
  assert (Hs : sessionsCache hello_world !! "mcp-abc123" = Some hello_session)
    by apply lookup_singleton_eq.
  split; [reflexivity|]. split; [exact Hs|]. split; [|split].
  - apply (C4_chat_on_existing_session (H := millis_codec) sample_env
             hello_world "mcp-abc123" hello_session
             [mkChat "user" "hello"; mkChat "assistant" "hi"]);
      [reflexivity | discriminate | exact Hs |].
    right. exists (mkChat "assistant" "hi"). split; [reflexivity|discriminate].
  - apply (C4_chat_on_existing_session (H := millis_codec) sample_env
             hello_world "mcp-abc123" hello_session []);
      [reflexivity | discriminate | exact Hs |].
    by left.
  - destruct (C4_chat_on_existing_session (H := millis_codec) sample_env
                hello_world "mcp-abc123" hello_session
                [mkChat "user" "and then?"] eq_refl ltac:(discriminate) Hs)
      as [_ Hok].
    destruct (Hok (mkChat "user" "and then?") eq_refl eq_refl)
      as (w' & Hreply & Hsession & _).
    exists w'. split; [exact Hreply|]. by rewrite Hsession.
Defined.

(** ** The completion callback *)

(** C5: what the code does on stream completion.  The callback appends
    the assistant message to the session it captured but does not touch
    [updatedAt]: the timestamp is the one left by the user turn (which
    does set it to the current instant, see the theorem of C4). *)
Theorem C5_onFinish_keeps_updatedAt `{DateCodec} id text out w :
  updatedAt <$> (sessionsCache (onFinish (AppendReply id) text out w) !! id)
  = updatedAt <$> (sessionsCache w !! id)
  ∧ messages <$> (sessionsCache (onFinish (AppendReply id) text out w) !! id)
    = (λ s : MCPSession,
         (messages s ++
          [{| role := assistant; content := text; name := None |}])%list)
      <$> (sessionsCache w !! id).
Proof.
  unfold onFinish. rewrite saveSessions_cache. simpl.
  rewrite lookup_alter_eq. by destruct (sessionsCache w !! id).
Qed.

(** ** Persistence failures *)

(** The reply of the handler and the cache it leaves are determined by
    the request, the cache and the environment apart from the disk: the
    state of the file and the outcome of the write play no part. *)
Lemma handler_ignores_disk `{DateCodec} env body w out f :
  (handler (with_write out env) body
           {| sessionsCache := sessionsCache w; sessionsFile := f |}).1
  = (handler env body w).1
  ∧ sessionsCache
      (handler (with_write out env) body
               {| sessionsCache := sessionsCache w; sessionsFile := f |}).2
    = sessionsCache (handler env body w).2.
Proof.
  unfold handler, dispatch, chat, createSession, deleteSession,
    getSessionInfo.
  simpl.
  repeat (case_match; simplify_eq/=; rewrite ?saveSessions_cache; try done).
Qed.

(** C9: a failing disk write changes neither the reply of an operation
    nor the cache it leaves (for every request, hence for create, delete
    and the user-turn append, and for the assistant append of the
    completion callback), compared with the same operation whose write
    succeeds; and a start on a file that cannot be read or parsed yields
    the empty cache. *)
Theorem C9_persistence_failure_not_propagated `{DateCodec}
    env body w hook text residue :
  (handler (with_write (WriteFails residue) env) body w).1
  = (handler (with_write WriteOk env) body w).1
  ∧ sessionsCache (handler (with_write (WriteFails residue) env) body w).2
    = sessionsCache (handler (with_write WriteOk env) body w).2
  ∧ sessionsCache (onFinish hook text (WriteFails residue) w)
    = sessionsCache (onFinish hook text WriteOk w)
  ∧ sessionsCache (startup Unreadable) = ∅
  ∧ sessionsCache (startup Malformed) = ∅.
Proof.
  destruct (handler_ignores_disk env body w (WriteFails residue)
              (sessionsFile w)) as [Hr1 Hc1].
  destruct (handler_ignores_disk env body w WriteOk (sessionsFile w))
    as [Hr2 Hc2].
  destruct w as [c f]. simpl in *.
  rewrite Hr1, Hr2, Hc1, Hc2.
  repeat split.
  destruct hook; [done|]. unfold onFinish. by rewrite !saveSessions_cache.
Qed.

(** ** Deleting *)

Lemma deleteSession_present `{DateCodec} env id w :
  is_Some (sessionsCache w !! id) →
  deleteSession env id w
  = (Deleted true "Session deleted",
     saveSessions (write env)
       {| sessionsCache := delete id (sessionsCache w);
          sessionsFile := sessionsFile w |}).
Proof.
  intros Hin. unfold deleteSession. by rewrite bool_decide_eq_true_2.
Qed.

Lemma deleteSession_absent `{DateCodec} env id w :
  sessionsCache w !! id = None →
  deleteSession env id w
  = (Deleted false "Session not found",
     {| sessionsCache := sessionsCache w; sessionsFile := sessionsFile w |}).
Proof.
  intros Hout. unfold deleteSession.
  rewrite bool_decide_eq_false_2 by (rewrite Hout; by intros [? ?]).
  by rewrite delete_id.
Qed.

(** C7: deleting twice.  For an id in the store the first [delete]
    answers [success: true] and removes that session and no other; the
    second [delete] of the same id answers [success: false] and changes
    nothing.  [deleteSession] raises no error, and neither does the
    handler around it when the service has its API key and the id is not
    the empty string. *)
Theorem C7_delete_twice `{DateCodec} env1 env2 id w :
  is_Some (sessionsCache w !! id) →
  ∃ w1,
    deleteSession env1 id w = (Deleted true "Session deleted", w1)
    ∧ sessionsCache w1 = delete id (sessionsCache w)
    ∧ sessionsCache w1 !! id = None
    ∧ deleteSession env2 id w1 = (Deleted false "Session not found", w1)
    ∧ (truthy (openaiApiKey env1) = true →
       truthy (openaiApiKey env2) = true →
       id ≠ "" →
       handler env1 (delete_request id) w
       = (Respond (Deleted true "Session deleted"), w1)
       ∧ handler env2 (delete_request id) w1
         = (Respond (Deleted false "Session not found"), w1)).
Proof.
  intros Hin. eexists.
  split; [by apply deleteSession_present|].
  rewrite saveSessions_cache. simpl.
  split; [done|]. split; [apply lookup_delete_eq|].
  assert (Hsnd : deleteSession env2 id
                   (saveSessions (write env1)
                      {| sessionsCache := delete id (sessionsCache w);
                         sessionsFile := sessionsFile w |})
                 = (Deleted false "Session not found",
                    saveSessions (write env1)
                      {| sessionsCache := delete id (sessionsCache w);
                         sessionsFile := sessionsFile w |})).
  { rewrite deleteSession_absent
      by (rewrite saveSessions_cache; apply lookup_delete_eq).
    by destruct (saveSessions _ _). }
  split; [exact Hsnd|].
  intros Hk1 Hk2 Hid. split.
  - rewrite handler_configured, dispatch_delete by done.
    by rewrite deleteSession_present.
  - rewrite handler_configured, dispatch_delete by done.
    by rewrite Hsnd.
Qed.

Lemma C7_delete_twice_witness :
  is_Some (sessionsCache hello_world !! "mcp-abc123")
  ∧ ∃ w1,
      handler (H := millis_codec) sample_env
              (delete_request "mcp-abc123") hello_world
      = (Respond (Deleted true "Session deleted"), w1)
      ∧ sessionsCache w1 = ∅
      ∧ handler (H := millis_codec) sample_env
                (delete_request "mcp-abc123") w1
        = (Respond (Deleted false "Session not found"), w1).
Proof.
  assert (Hin : is_Some (sessionsCache hello_world !! "mcp-abc123")).
  { exists hello_session. apply lookup_singleton_eq. }
  split; [exact Hin|].
  destruct (C7_delete_twice (H := millis_codec) sample_env sample_env
              "mcp-abc123" hello_world Hin)
    as (w1 & _ & Hc & _ & _ & Hh).
  exists w1.
  destruct Hh as [H1 H2]; [reflexivity | reflexivity | discriminate |].
  split; [exact H1|]. split; [|exact H2].
  rewrite Hc. apply delete_singleton_eq.
Defined.

(** ** Creating *)

Lemma generateId_nonempty env : generateId env ≠ "".
Proof. unfold generateId. discriminate. Qed.

Lemma dispatch_create `{DateCodec} env md w :
  dispatch env (create_request md) w
  = (inr (createSession env (metadata_or_empty md) w).1,
     (createSession env (metadata_or_empty md) w).2).
Proof. reflexivity. Qed.

(** Right after [createSession] the new session is in the cache under the
    returned id, with no message and both timestamps at the instant of
    creation. *)
Lemma createSession_lookup `{DateCodec} env md w :
  sessionsCache (createSession env md w).2 !! generateId env
  = Some {| conversationId := generateId env; messages := [];
            metadata := md; createdAt := Instant (clock env);
            updatedAt := Instant (clock env) |}.
Proof.
  unfold createSession. simpl. rewrite saveSessions_cache. simpl.
  apply lookup_insert_eq.
Qed.

(** C8: create, then get.  For every metadata bag, a [create] request
    answers with a fresh id, that bag and [messageCount: 0], and a [get]
    request for that id sent right after succeeds and answers with the
    same id, the same bag and [messageCount: 0] (the service having its
    API key for both requests). *)
Theorem C8_create_then_get `{DateCodec} env1 env2 w
    (bag : list (string * json)) :
  truthy (openaiApiKey env1) = true →
  truthy (openaiApiKey env2) = true →
  ∃ id created w1,
    handler env1 (create_request (Some (JObj bag))) w
    = (Respond (Created id (JObj bag) created 0), w1)
    ∧ handler env2 (get_request id) w1
      = (Respond (SessionInfo id (JObj bag) created created 0), w1).
Proof.
  intros Hk1 Hk2.
  exists (generateId env1), (toISOString (clock env1)),
    (createSession env1 (JObj bag) w).2.
  split.
  - rewrite handler_configured, dispatch_create by done. reflexivity.
  - rewrite handler_configured, dispatch_get
      by (done || apply generateId_nonempty).
    unfold getSessionInfo. by rewrite createSession_lookup.
Qed.

Lemma C8_create_then_get_witness :
  truthy (openaiApiKey sample_env) = true
  ∧ ∃ w1,
      handler (H := millis_codec) sample_env
        (create_request (Some (JObj [("createdBy", JStr "web-client")])))
        hello_world
      = (Respond (Created "mcp-4fzyo82mvyrk2j5x8c1q9w"
                          (JObj [("createdBy", JStr "web-client")])
                          "3000" 0), w1)
      ∧ handler (H := millis_codec) sample_env
          (get_request "mcp-4fzyo82mvyrk2j5x8c1q9w") w1
        = (Respond (SessionInfo "mcp-4fzyo82mvyrk2j5x8c1q9w"
                                (JObj [("createdBy", JStr "web-client")])
                                "3000" "3000" 0), w1).
Proof.
  split; [reflexivity|].
  destruct (C8_create_then_get (H := millis_codec) sample_env sample_env
              hello_world [("createdBy", JStr "web-client")]
              eq_refl eq_refl)
    as (id & created & w1 & Hcreate & Hget).
  exists w1.
  assert (Hid : id = "mcp-4fzyo82mvyrk2j5x8c1q9w"
                ∧ created = "3000").
  { unfold handler in Hcreate. simpl in Hcreate.
    by injection Hcreate as <- <- _. }
  destruct Hid as [<- <-]. by split.
Defined.

(** ** Timestamps stay valid

    The handlers only ever store the current instant, so a cache whose
    timestamps are valid dates keeps that property through every request,
    every completion callback and every restart. *)

Lemma store_valid_empty f : store_valid {| sessionsCache := ∅; sessionsFile := f |}.
Proof. intros id s Hs. simpl in Hs. by rewrite lookup_empty in Hs. Qed.

Lemma handler_keeps_store_valid `{DateCodec} env body w :
  store_valid w → store_valid (handler env body w).2.
Proof.
  intros Hv id s.
  unfold handler, dispatch, chat, createSession, deleteSession,
    getSessionInfo.
  repeat (case_match; simplify_eq/=; rewrite ?saveSessions_cache;
          try (by apply Hv)); simpl.
  - intros [[_ <-] | [_ Hs]]%lookup_insert_Some; [|by eapply Hv].
    split; eexists; reflexivity.
  - intros [_ Hs]%lookup_delete_Some. by eapply Hv.
  - intros [_ Hs]%lookup_delete_Some. by eapply Hv.
  - intros [[_ <-] | [_ Hs]]%lookup_insert_Some; [|by eapply Hv].
    split; [|by eexists]. simpl. by eapply Hv.
Qed.

Lemma onFinish_keeps_store_valid `{DateCodec} hook text out w :
  store_valid w → store_valid (onFinish hook text out w).
Proof.
  intros Hv id s. destruct hook as [|id']; [by apply Hv|].
  unfold onFinish. rewrite saveSessions_cache. simpl.
  destruct (decide (id' = id)) as [->|Hne].
  - rewrite lookup_alter_eq.
    destruct (sessionsCache w !! id) as [s0|] eqn:Hs0; [|done].
    intros [= <-]. by destruct (Hv id s0 Hs0).
  - rewrite lookup_alter_ne by done. by apply Hv.
Qed.

Lemma restart_keeps_store_valid `{DateCodec} w :
  codec_lossless → store_valid w → store_valid (restart w).
Proof.
  intros Hc Hv id s Hs.
  rewrite restart_cache, lookup_fmap in Hs.
  destruct (delete "__proto__" (sessionsCache w) !! id) as [s0|] eqn:Hs0;
    [|done].
  apply lookup_delete_Some in Hs0 as [_ Hs0].
  injection Hs as <-. rewrite revive_stringify_valid by (done || by eapply Hv).
  by destruct (Hv id s0 Hs0).
Qed.

(** A whole round on a session created at instant 1000: the user turn at
    instant 2000 stamps the session, the completion of the stream does
    not. *)
Example round_keeps_user_turn_stamp :
  let env := {| openaiApiKey := Some "sk-test"; clock := 2000;
                random1 := "0.1"; random2 := "0.2"; write := WriteOk |} in
  let w0 :=
    {| sessionsCache :=
         {[ "mcp-abc123" :=
              {| conversationId := "mcp-abc123"; messages := [];
                 metadata := JObj []; createdAt := Instant 1000;
                 updatedAt := Instant 1000 |} ]};
       sessionsFile := NoFile |} in
  let w1 := (handler (H := millis_codec) env
               (chat_request "mcp-abc123" [mkChat "user" "hello"]) w0).2 in
  let w2 := onFinish (H := millis_codec) (AppendReply "mcp-abc123") "hi"
              WriteOk w1 in
  sessionsCache w2 !! "mcp-abc123"
  = Some {| conversationId := "mcp-abc123";
            messages := [ {| role := user; content := "hello"; name := None |};
                          {| role := assistant; content := "hi"; name := None |} ];
            metadata := JObj []; createdAt := Instant 1000;
            updatedAt := Instant 2000 |}.
Proof. vm_compute. reflexivity. Qed.

(** * Further properties of the endpoint *)

(** ** Failures *)

(** How the handler changes the world: not at all, or by a
    [saveSessions] on a new cache. *)
Lemma handler_world `{DateCodec} env body w :
  (handler env body w).2 = w
  ∨ ∃ cache', (handler env body w).2
              = saveSessions (write env)
                  {| sessionsCache := cache'; sessionsFile := sessionsFile w |}.
Proof.
  unfold handler, dispatch, chat, createSession, deleteSession,
    getSessionInfo.
  repeat (case_match; simplify_eq/=; try (by left); try (by right; eexists)).
  left. destruct w as [c f]. simpl in *. f_equal.
  apply delete_id.
  match goal with
  | Hb : bool_decide _ = false |- _ => apply bool_decide_eq_false_1 in Hb
  end.
  by apply eq_None_not_Some.
Qed.

(** A failure of the handler's body has status 500 and one of two
    messages, and leaves the world as it was. *)
Lemma handler_failure `{DateCodec} env body w code msg w' :
  handler env body w = (Fail code msg, w') →
  code = 500
  ∧ (msg = "Missing OpenAI API key" ∨ msg = "Failed to process request")
  ∧ w' = w.
Proof.
  unfold handler, dispatch, chat, createSession, deleteSession,
    getSessionInfo.
  repeat (case_match; simplify_eq/=); intros; simplify_eq; auto.
Qed.

(** The two ways in which the handler answers with a stream: a direct
    chat, which changes nothing, and a session chat, which has appended
    the user turn and saved before the helper is called. *)
Lemma handler_stream `{DateCodec} env body w prompt hook w' :
  handler env body w = (Respond (DataStream prompt hook), w') →
  (∃ msgs, prompt = RawMessages msgs ∧ hook = LogOnly ∧ w' = w)
  ∨ (∃ id session turn,
       sessionsCache w !! id = Some session
       ∧ role turn = user
       ∧ prompt = History (messages session ++ [turn])
       ∧ hook = AppendReply (conversationId session)
       ∧ w' = saveSessions (write env)
                {| sessionsCache :=
                     <[id := set_updatedAt (Instant (clock env))
                               (push_message turn session)]> (sessionsCache w);
                   sessionsFile := sessionsFile w |}).
Proof.
  unfold handler, dispatch, chat, createSession, deleteSession,
    getSessionInfo, handleDirectChat.
  repeat (case_match; simplify_eq/=); intros Heq; simplify_eq;
    try (left; eexists; by repeat split).
  right. rewrite formattedMessages_same.
  do 3 eexists. split; [eassumption|]. by repeat split.
Qed.

(** The replies of the handler's body that come with a change of the
    world. *)
Lemma handler_changes_world `{DateCodec} env body w r w' :
  handler env body w = (r, w') →
  w' ≠ w →
  (∃ id md created n, r = Respond (Created id md created n))
  ∨ r = Respond (Deleted true "Session deleted")
  ∨ (∃ history id, r = Respond (DataStream (History history) (AppendReply id))).
Proof.
  unfold handler, dispatch, chat, createSession, deleteSession,
    getSessionInfo, handleSessionChat, handleDirectChat.
  repeat (case_match; simplify_eq/=); intros Heq Hne; simplify_eq;
    try done; eauto 10.
  exfalso. apply Hne. destruct w as [c f]. simpl in *. f_equal.
  apply delete_id.
  match goal with
  | Hb : bool_decide _ = false |- _ => apply bool_decide_eq_false_1 in Hb
  end.
  by apply eq_None_not_Some.
Qed.

(** X1: the failures of a request whose body has been read.  An error
    raised inside the handler reaches the caller with status 500 and one
    of two fixed messages,
    whatever it was, and such a request leaves the cache and the file
    exactly as they were.  The error of a chat helper is not replaced: it
    reaches the caller as it is; on a direct chat nothing has changed,
    but on a session chat the user turn has been appended, stamped and
    saved before the helper was called, and stays. *)
Theorem X1_failures_of_a_request `{DateCodec} refuses env body w o w' :
  eventHandler refuses env body w = (o, w') →
  (∀ code msg, o = Failed code msg →
     code = 500
     ∧ (msg = "Missing OpenAI API key" ∨ msg = "Failed to process request")
     ∧ w' = w)
  ∧ (∀ error, o = Rejected error →
       (∃ msgs, refuses (RawMessages msgs) = Some error ∧ w' = w)
       ∨ (∃ id session turn,
            sessionsCache w !! id = Some session
            ∧ role turn = user
            ∧ refuses (History (messages session ++ [turn])) = Some error
            ∧ sessionsCache w' !! id
              = Some (set_updatedAt (Instant (clock env))
                        (push_message turn session))
            ∧ (write env = WriteOk →
               sessionsFile w'
               = Document (stringify <$> delete "__proto__"
                                           (sessionsCache w'))))).
Proof.
  unfold eventHandler.
  destruct (handler env body w) as [[r | code0 msg0] w1] eqn:Hh.
  - destruct r as [ | | | prompt hook];
      try (intros [= <- <-]; split; intros; discriminate).
    destruct (refuses prompt) as [error0|] eqn:Href;
      intros [= <- <-]; (split; [intros; discriminate|]);
      intros error [= <-].
    destruct (handler_stream _ _ _ _ _ _ Hh)
      as [(msgs & -> & _ & ->) | (id & session & turn & Hs & Hrole & -> & _ & ->)].
    + left. by exists msgs.
    + right. exists id, session, turn.
      split; [done|]. split; [done|]. split; [done|].
      rewrite saveSessions_cache. simpl.
      split; [apply lookup_insert_eq|].
      intros ->. by rewrite saveSessions_file_ok.
  - intros [= <- <-]. split; [|intros; discriminate].
    intros code msg [= <- <-]. by apply (handler_failure env body w).
Qed.

Lemma X1_failures_of_a_request_witness :
  let request := chat_request "mcp-abc123" [mkChat "user" "and then?"] in
  let w' := (handler (H := millis_codec) sample_env request hello_world).2 in
  eventHandler (H := millis_codec) refuses_all sample_env request hello_world
  = (Rejected "model not available", w')
  ∧ w' ≠ hello_world
  ∧ ((∃ msgs, refuses_all (RawMessages msgs) = Some "model not available"
              ∧ w' = hello_world)
     ∨ (∃ id session turn,
          sessionsCache hello_world !! id = Some session
          ∧ role turn = user
          ∧ refuses_all (History (messages session ++ [turn]))
            = Some "model not available"
          ∧ sessionsCache w' !! id
            = Some (set_updatedAt (Instant (clock sample_env))
                      (push_message turn session))
          ∧ (write sample_env = WriteOk →
             sessionsFile w'
             = Document (stringify (H := millis_codec)
                           <$> delete "__proto__" (sessionsCache w'))))).
Proof.
  intros request w'.
  assert (Hrun : eventHandler (H := millis_codec) refuses_all sample_env
                   request hello_world
                 = (Rejected "model not available", w'))
    by (vm_compute; reflexivity).
  split; [exact Hrun|]. split.
  { intros Heq. apply (f_equal sessionsFile) in Heq. discriminate Heq. }
  exact (proj2 (X1_failures_of_a_request (H := millis_codec) refuses_all
                  sample_env request hello_world _ w' Hrun)
           "model not available" eq_refl).
Defined.

(** ** What changes the world *)

(** X2: a request changes the cache or the file only when it is answered
    with a created session or a successful deletion, or when it is a chat
    on a session with a user turn, whether the stream is then returned or
    the helper fails.  Reads, requests failing with status 500, chats
    without a session and deletions of an absent id leave both
    untouched. *)
Theorem X2_only_mutations_change_the_world `{DateCodec}
    refuses env body w o w' :
  eventHandler refuses env body w = (o, w') →
  w' ≠ w →
  (∃ id md created n, o = Answered (Created id md created n))
  ∨ o = Answered (Deleted true "Session deleted")
  ∨ (∃ history id,
       o = Answered (DataStream (History history) (AppendReply id)))
  ∨ (∃ history error,
       refuses (History history) = Some error ∧ o = Rejected error).
Proof.
  unfold eventHandler.
  destruct (handler env body w) as [r w1] eqn:Hh. intros Heq Hne.
  assert (w1 = w') as -> by (repeat case_match; by simplify_eq).
  destruct (handler_changes_world env body w r w' Hh Hne)
    as [(id & md & created & n & ->) | [-> | (history & id & ->)]].
  - left. simplify_eq. eauto.
  - right. left. by simplify_eq.
  - right. right.
    destruct (refuses (History history)) as [error|] eqn:Href; simplify_eq.
    + right. eauto.
    + left. eauto.
Qed.

Lemma X2_only_mutations_change_the_world_witness :
  let request := delete_request "mcp-abc123" in
  let o := Answered (Deleted true "Session deleted") in
  let w' := (handler (H := millis_codec) sample_env request hello_world).2 in
  eventHandler (H := millis_codec) refuses_empty sample_env request hello_world
  = (o, w')
  ∧ w' ≠ hello_world
  ∧ ((∃ id md created n, o = Answered (Created id md created n))
     ∨ o = Answered (Deleted true "Session deleted")
     ∨ (∃ history id,
          o = Answered (DataStream (History history) (AppendReply id)))
     ∨ (∃ history error,
          refuses_empty (History history) = Some error ∧ o = Rejected error)).
Proof.
  intros request o w'.
  assert (Hrun : eventHandler (H := millis_codec) refuses_empty sample_env
                   request hello_world = (o, w'))
    by (vm_compute; reflexivity).
  assert (Hne : w' ≠ hello_world).
  { intros Heq. apply (f_equal sessionsFile) in Heq. discriminate Heq. }
  split; [exact Hrun|]. split; [exact Hne|].
  exact (X2_only_mutations_change_the_world (H := millis_codec)
           refuses_empty sample_env request hello_world o w' Hrun Hne).
Defined.

(** ** Chat requests *)

(** An action that is none of [create], [get] and [delete] is not
    rejected: the request is handled exactly as the same request without
    an action, that is, as a chat. *)
Lemma unknown_action_is_chat `{DateCodec} env body w :
  or_default (Body.action body) "chat" ≠ "create" →
  or_default (Body.action body) "chat" ≠ "get" →
  or_default (Body.action body) "chat" ≠ "delete" →
  handler env body w
  = handler env
      (Body.mk None (Body.conversationId body) (Body.metadata body)
               (Body.messages body) (Body.data_conversationId body)) w.
Proof.
  intros Hc Hg Hd. unfold handler.
  rewrite (dispatch_default env body w) by done.
  destruct body. reflexivity.
Qed.

(** X3: a chat without a session id (absent or empty
    [data.conversationId]) is ephemeral.  The helper is called with the
    request's messages as they are (none when the field is absent); the
    caller receives its stream, or its error when the SDK refuses the
    prompt; in both cases the cache and the file are not touched, and the
    completion of the stream changes nothing either. *)
Theorem X3_direct_chat_is_ephemeral `{DateCodec}
    refuses env body w text out :
  truthy (openaiApiKey env) = true →
  or_default (Body.action body) "chat" ≠ "create" →
  or_default (Body.action body) "chat" ≠ "get" →
  or_default (Body.action body) "chat" ≠ "delete" →
  truthy (Body.data_conversationId body) = false →
  let prompt := RawMessages (default [] (Body.messages body)) in
  eventHandler refuses env body w
  = (match refuses prompt with
     | Some error => Rejected error
     | None => Answered (DataStream prompt LogOnly)
     end, w)
  ∧ onFinish LogOnly text out w = w.
Proof.
  intros Hk Hc Hg Hd Hno prompt. split; [|done].
  assert (Hh : handler env body w = (Respond (DataStream prompt LogOnly), w)).
  { rewrite handler_configured, dispatch_default by done.
    unfold chat, handleDirectChat.
    destruct (Body.data_conversationId body) as [id|]; [|done].
    simpl in Hno. apply negb_false_iff in Hno. by rewrite Hno. }
  unfold eventHandler. rewrite Hh. by destruct (refuses prompt).
Qed.

Lemma X3_direct_chat_is_ephemeral_witness :
  eventHandler (H := millis_codec) refuses_empty sample_env
    (Body.mk None None None (Some [mkChat "user" "hello"]) None) hello_world
  = (Answered (DataStream (RawMessages [mkChat "user" "hello"]) LogOnly),
     hello_world)
  ∧ eventHandler (H := millis_codec) refuses_empty sample_env
      (Body.mk None None None None None) hello_world
    = (Rejected "messages must not be empty", hello_world)
  ∧ onFinish (H := millis_codec) LogOnly "hi" WriteOk hello_world = hello_world.
Proof.
  split; [|split].
  - apply (X3_direct_chat_is_ephemeral (H := millis_codec) refuses_empty
             sample_env
             (Body.mk None None None (Some [mkChat "user" "hello"]) None)
             hello_world "hi" WriteOk);
      (reflexivity || discriminate).
  - apply (X3_direct_chat_is_ephemeral (H := millis_codec) refuses_empty
             sample_env (Body.mk None None None None None)
             hello_world "hi" WriteOk);
      (reflexivity || discriminate).
  - reflexivity.
Defined.

(** The requests of the pages that the switch does not know are direct
    chats on no message: with an SDK that refuses an empty list of
    messages the caller receives the error of the SDK, with one that
    accepts it a stream; in neither case the messages or the sessions
    asked for. *)
Example unknown_actions_with_refusing_sdk :
  eventHandler (H := millis_codec) refuses_empty sample_env
    (getMessages_request "mcp-abc123") hello_world
  = (Rejected "messages must not be empty", hello_world)
  ∧ eventHandler (H := millis_codec) refuses_empty sample_env
      listSessions_request hello_world
    = (Rejected "messages must not be empty", hello_world)
  ∧ eventHandler (H := millis_codec) (λ _, None) sample_env
      (getMessages_request "mcp-abc123") hello_world
    = (Answered (DataStream (RawMessages []) LogOnly), hello_world).
Proof. repeat split. Qed.

(** X4: of the messages of a session chat only the newest counts.  Two
    requests on the same session whose message lists end with the same
    message get the same reply and leave the same state: earlier
    messages of the request, a system prompt among them, are neither
    stored nor sent. *)
Theorem X4_only_newest_message_counts `{DateCodec} env id msgs1 msgs2 w :
  id ≠ "" →
  last msgs1 = last msgs2 →
  handler env (chat_request id msgs1) w = handler env (chat_request id msgs2) w.
Proof.
  intros Hid Hlast. unfold handler, dispatch, chat. simpl.
  apply String.eqb_neq in Hid. rewrite Hid, Hlast. reflexivity.
Qed.

Lemma X4_only_newest_message_counts_witness :
  handler (H := millis_codec) sample_env
    (chat_request "mcp-abc123"
       [mkChat "system" "You are a helpful assistant.";
        mkChat "user" "and then?"]) hello_world
  = handler (H := millis_codec) sample_env
      (chat_request "mcp-abc123" [mkChat "user" "and then?"]) hello_world.
Proof.
  apply (X4_only_newest_message_counts (H := millis_codec));
    [discriminate | reflexivity].
Defined.

(** ** Creating, again *)

Lemma string_length_app (s1 s2 : string) :
  String.length (s1 +:+ s2) = (String.length s1 + String.length s2)%nat.
Proof. induction s1 as [|a s1 IH]; simpl; [done|]. by rewrite IH. Qed.

Lemma substring_length_le (n m : nat) (s : string) :
  (String.length (substring n m s) ≤ m)%nat.
Proof.
  revert n m. induction s as [|a s IH]; intros [|n] [|m]; simpl; try lia.
  - specialize (IH 0%nat m). lia.
  - apply (IH n 0%nat).
  - apply (IH n (S m)).
Qed.

Lemma generateId_prefixed env : String.prefix "mcp-" (generateId env) = true.
Proof.
  unfold generateId. simpl.
  by destruct (substring 2 13 (random1 env) +:+ substring 2 13 (random2 env)).
Qed.

(** X5: every generated id starts with [mcp-] and has between 4 and 30
    characters, whatever the random generator returns (a draw may well
    contribute nothing). *)
Theorem X5_generateId_shape env :
  String.prefix "mcp-" (generateId env) = true
  ∧ (4 ≤ String.length (generateId env) ≤ 30)%nat.
Proof.
  split; [apply generateId_prefixed|].
  unfold generateId. rewrite !string_length_app.
  pose proof (substring_length_le 2 13 (random1 env)).
  pose proof (substring_length_le 2 13 (random2 env)).
  simpl. lia.
Qed.

(** X6: [create] never fails for want of a free id and never checks
    whether the generated id is taken.  The session stored under the id
    afterwards is the new, empty one; all other sessions are as before;
    the number of sessions grows by one when the id was free and stays
    the same when it was taken, the former session being replaced. *)
Theorem X6_create_replaces_on_collision `{DateCodec} env md w :
  truthy (openaiApiKey env) = true →
  ∃ w',
    handler env (create_request md) w
    = (Respond (Created (generateId env) (metadata_or_empty md)
                        (toISOString (clock env)) 0), w')
    ∧ sessionsCache w' !! generateId env
      = Some {| conversationId := generateId env; messages := [];
                metadata := metadata_or_empty md;
                createdAt := Instant (clock env);
                updatedAt := Instant (clock env) |}
    ∧ (∀ id, id ≠ generateId env →
             sessionsCache w' !! id = sessionsCache w !! id)
    ∧ (sessionsCache w !! generateId env = None →
       size (sessionsCache w') = S (size (sessionsCache w)))
    ∧ (is_Some (sessionsCache w !! generateId env) →
       size (sessionsCache w') = size (sessionsCache w)).
Proof.
  intros Hk. eexists. split.
  { rewrite handler_configured, dispatch_create by done. reflexivity. }
  unfold createSession. simpl. rewrite saveSessions_cache. simpl.
  split; [apply lookup_insert_eq|].
  split; [intros id Hid; by apply lookup_insert_ne|].
  split.
  - intros Hfree. by apply map_size_insert_None.
  - intros Htaken. by apply map_size_insert_Some.
Qed.

Lemma X6_create_replaces_on_collision_witness :
  let env := {| openaiApiKey := Some "sk-test"; clock := 5000;
                random1 := "0.abc123"; random2 := "0"; write := WriteOk |} in
  truthy (openaiApiKey env) = true
  ∧ generateId env = "mcp-abc123"
  ∧ ∃ w',
      handler (H := millis_codec) env (create_request None) hello_world
      = (Respond (Created "mcp-abc123" (JObj []) "5000" 0), w')
      ∧ messages <$> (sessionsCache w' !! "mcp-abc123") = Some []
      ∧ size (sessionsCache w') = size (sessionsCache hello_world).
Proof.
  intros env. split; [reflexivity|]. split; [reflexivity|].
  destruct (X6_create_replaces_on_collision (H := millis_codec) env None
              hello_world eq_refl)
    as (w' & Hreply & Hnew & _ & _ & Hsize).
  exists w'. split; [exact Hreply|]. split.
  - change (generateId env) with "mcp-abc123" in Hnew. by rewrite Hnew.
  - apply Hsize. exists hello_session. apply lookup_singleton_eq.
Defined.

(** ** Invariants of the store *)

Lemma fresh_install_cache `{DateCodec} : sessionsCache fresh_install = ∅.
Proof. reflexivity. Qed.

Lemma session_wf_push id s m :
  session_wf id s →
  (role m = user ∨ role m = assistant) → name m = None →
  session_wf id (push_message m s).
Proof.
  intros (Hid & Hpre & Hts & Hms) Hrole Hname.
  split; [done|]. split; [done|]. split; [done|].
  simpl. apply Forall_app. split; [done|]. by constructor.
Qed.

Lemma handler_keeps_well_formed `{DateCodec} env body w :
  well_formed w → well_formed (handler env body w).2.
Proof.
  intros Hwf id s.
  unfold handler, dispatch, chat, createSession, deleteSession,
    getSessionInfo.
  repeat (case_match; simplify_eq/=; rewrite ?saveSessions_cache;
          try (by apply Hwf)); simpl.
  - intros [[<- <-] | [_ Hs]]%lookup_insert_Some; [|by eapply Hwf].
    split; [done|]. split.
    { unfold generateId. simpl.
      by destruct (substring 2 13 (random1 env)
                   +:+ substring 2 13 (random2 env)). }
    split; [split; eexists; reflexivity|]. constructor.
  - intros [_ Hs]%lookup_delete_Some. by eapply Hwf.
  - intros [_ Hs]%lookup_delete_Some. by eapply Hwf.
  - intros [[<- <-] | [_ Hs]]%lookup_insert_Some; [|by eapply Hwf].
    match goal with
    | Hm : sessionsCache w !! _ = Some ?m |- _ =>
        destruct (Hwf _ _ Hm) as (Hid & Hpre & [Hc _] & Hms)
    end.
    split; [done|]. split; [done|].
    split; [split; [done|by eexists]|].
    simpl. apply Forall_app. split; [done|].
    constructor; [|constructor]. simpl. auto.
Qed.

Lemma onFinish_keeps_well_formed `{DateCodec} hook text out w :
  well_formed w → well_formed (onFinish hook text out w).
Proof.
  intros Hwf id s. destruct hook as [|id']; [by apply Hwf|].
  unfold onFinish. rewrite saveSessions_cache. simpl.
  destruct (decide (id' = id)) as [->|Hne].
  - rewrite lookup_alter_eq.
    destruct (sessionsCache w !! id) as [s0|] eqn:Hs0; [|done].
    intros [= <-]. apply session_wf_push; simpl; auto.
  - rewrite lookup_alter_ne by done. by apply Hwf.
Qed.

Lemma step_keeps_well_formed `{DateCodec} e w :
  well_formed w → well_formed (step e w).
Proof.
  destruct e; [apply handler_keeps_well_formed|apply onFinish_keeps_well_formed].
Qed.

Lemma run_keeps_well_formed `{DateCodec} events w :
  well_formed w → well_formed (run events w).
Proof.
  revert w. induction events as [|e events IH]; intros w Hwf; [done|].
  simpl. apply IH. by apply step_keeps_well_formed.
Qed.

Lemma reachable_well_formed `{DateCodec} (events : list Event) :
  well_formed (run events fresh_install).
Proof.
  apply run_keeps_well_formed.
  intros j s0 Hs0. by rewrite fresh_install_cache, lookup_empty in Hs0.
Qed.

Lemma sample_round_lookup :
  sessionsCache (run (H := millis_codec) sample_round (fresh_install (H := millis_codec)))
    !! "mcp-4fzyo82mvyrk2j5x8c1q9w"
  = Some sample_round_session.
Proof. vm_compute. reflexivity. Qed.

(** X7: every state that a fresh installation reaches, through any
    sequence of requests and stream completions with whatever
    environment, holds only sessions stored under their own id, with an
    id starting with [mcp-], valid timestamps, and a history made of
    unnamed user and assistant messages only (no system message is ever
    stored). *)
Theorem X7_reachable_states_are_well_formed `{DateCodec}
    (events : list Event) (id : string) (s : MCPSession) :
  sessionsCache (run events fresh_install) !! id = Some s →
  conversationId s = id
  ∧ String.prefix "mcp-" id = true
  ∧ timestamps_valid s
  ∧ Forall (λ m, (role m = user ∨ role m = assistant) ∧ name m = None)
           (messages s).
Proof. apply (reachable_well_formed events). Qed.

Lemma X7_reachable_states_are_well_formed_witness :
  sessionsCache (run (H := millis_codec) sample_round (fresh_install (H := millis_codec)))
    !! "mcp-4fzyo82mvyrk2j5x8c1q9w"
  = Some sample_round_session
  ∧ conversationId sample_round_session = "mcp-4fzyo82mvyrk2j5x8c1q9w"
  ∧ String.prefix "mcp-" "mcp-4fzyo82mvyrk2j5x8c1q9w" = true
  ∧ timestamps_valid sample_round_session
  ∧ Forall (λ m, (role m = user ∨ role m = assistant) ∧ name m = None)
           (messages sample_round_session).
Proof.
  split; [exact sample_round_lookup|].
  exact (X7_reachable_states_are_well_formed (H := millis_codec)
           sample_round "mcp-4fzyo82mvyrk2j5x8c1q9w" sample_round_session
           sample_round_lookup).
Defined.

Lemma prefixed_nonempty (id : string) : String.prefix "mcp-" id = true → id ≠ "".
Proof. by intros Hp ->. Qed.

(** X8: in every state that a fresh installation reaches, [get] on an id
    of the store succeeds (the service having its API key): it answers
    with the requested id, the session's metadata and timestamps, and the
    number of its messages, and changes nothing. *)
Theorem X8_get_succeeds_on_reachable_states `{DateCodec}
    (events : list Event) env (id : string) (s : MCPSession) :
  truthy (openaiApiKey env) = true →
  sessionsCache (run events fresh_install) !! id = Some s →
  ∃ c u,
    createdAt s = Instant c ∧ updatedAt s = Instant u
    ∧ handler env (get_request id) (run events fresh_install)
      = (Respond (SessionInfo id (metadata s) (toISOString c) (toISOString u)
                              (length (messages s))),
         run events fresh_install).
Proof.
  intros Hk Hs.
  destruct (reachable_well_formed events id s Hs)
    as (Hid & Hpre & [[c Hc] [u Hu]] & _).
  exists c, u. split; [done|]. split; [done|].
  rewrite handler_configured, dispatch_get
    by (done || by apply prefixed_nonempty).
  unfold getSessionInfo. by rewrite Hs, Hc, Hu, Hid.
Qed.

Lemma X8_get_succeeds_on_reachable_states_witness :
  truthy (openaiApiKey sample_env) = true
  ∧ handler (H := millis_codec) sample_env
      (get_request "mcp-4fzyo82mvyrk2j5x8c1q9w")
      (run (H := millis_codec) sample_round (fresh_install (H := millis_codec)))
    = (Respond (SessionInfo "mcp-4fzyo82mvyrk2j5x8c1q9w" (JObj [])
                            "3000" "3000" 2),
       run (H := millis_codec) sample_round (fresh_install (H := millis_codec))).
Proof.
  split; [reflexivity|].
  destruct (X8_get_succeeds_on_reachable_states (H := millis_codec)
              sample_round sample_env "mcp-4fzyo82mvyrk2j5x8c1q9w"
              sample_round_session eq_refl sample_round_lookup)
    as (c & u & Hc & Hu & Hget).
  injection Hc as <-. injection Hu as <-. exact Hget.
Defined.

(** ** Durability *)

Lemma well_formed_store_valid w : well_formed w → store_valid w.
Proof. intros Hwf id s Hs. by destruct (Hwf id s Hs) as (_ & _ & Hts & _). Qed.

(** No request and no completion stores a session under the key
    [__proto__]. *)
Lemma handler_keeps_no_proto `{DateCodec} env body w :
  sessionsCache w !! "__proto__" = None →
  sessionsCache (handler env body w).2 !! "__proto__" = None.
Proof.
  intros Hno.
  unfold handler, dispatch, chat, createSession, deleteSession,
    getSessionInfo.
  repeat (case_match; simplify_eq/=; rewrite ?saveSessions_cache;
          try done); simpl.
  - rewrite lookup_insert_ne; [done|].
    intros Heq. pose proof (generateId_prefixed env) as Hp.
    by rewrite Heq in Hp.
  - by apply lookup_delete_None; right.
  - by apply lookup_delete_None; right.
  - rewrite lookup_insert_ne; [done|]. intros ->. congruence.
Qed.

Lemma onFinish_keeps_no_proto `{DateCodec} hook text out w :
  sessionsCache w !! "__proto__" = None →
  sessionsCache (onFinish hook text out w) !! "__proto__" = None.
Proof.
  intros Hno. destruct hook as [|id]; [done|].
  unfold onFinish. rewrite saveSessions_cache. simpl.
  destruct (decide (id = "__proto__")) as [->|Hne].
  - by rewrite lookup_alter_eq, Hno.
  - by rewrite lookup_alter_ne.
Qed.

(** After a successful [saveSessions] on a cache with valid timestamps
    and no key [__proto__] the file gives the cache back. *)
Lemma saveSessions_durable `{DateCodec} w :
  codec_lossless → store_valid w → sessionsCache w !! "__proto__" = None →
  durable (saveSessions WriteOk w).
Proof.
  intros Hc Hv Hno. unfold durable.
  rewrite saveSessions_file_ok, startup_document, saveSessions_cache.
  rewrite delete_id by done. rewrite <- map_fmap_compose.
  apply map_fmap_ext. intros id s Hs. simpl.
  apply revive_stringify_valid; [done|]. by eapply Hv.
Qed.

Lemma handler_saved_durable `{DateCodec} env body w :
  codec_lossless → store_valid w → sessionsCache w !! "__proto__" = None →
  write env = WriteOk →
  (handler env body w).2 = w ∨ durable (handler env body w).2.
Proof.
  intros Hc Hv Hno Hok.
  pose proof (handler_keeps_store_valid env body w Hv) as Hv'.
  pose proof (handler_keeps_no_proto env body w Hno) as Hno'.
  destruct (handler_world env body w) as [Hsame | [cache' Hsaved]];
    [by left|right].
  rewrite Hsaved in *. rewrite Hok in *.
  rewrite saveSessions_cache in Hno'.
  apply saveSessions_durable; [done| |done].
  intros id s Hs. apply (Hv' id s). by rewrite saveSessions_cache.
Qed.

Lemma onFinish_saved_durable `{DateCodec} id text w :
  codec_lossless → store_valid w → sessionsCache w !! "__proto__" = None →
  durable (onFinish (AppendReply id) text WriteOk w).
Proof.
  intros Hc Hv Hno.
  pose proof (onFinish_keeps_store_valid (AppendReply id) text WriteOk w Hv)
    as Hv'.
  pose proof (onFinish_keeps_no_proto (AppendReply id) text WriteOk w Hno)
    as Hno'.
  unfold onFinish in *. rewrite saveSessions_cache in Hno'.
  apply saveSessions_durable; [done| |done].
  intros j s Hs. apply (Hv' j s). by rewrite saveSessions_cache.
Qed.

Lemma step_keeps_store_valid `{DateCodec} e w :
  store_valid w → store_valid (step e w).
Proof.
  destruct e; [apply handler_keeps_store_valid|apply onFinish_keeps_store_valid].
Qed.

Lemma step_keeps_no_proto `{DateCodec} e w :
  sessionsCache w !! "__proto__" = None →
  sessionsCache (step e w) !! "__proto__" = None.
Proof.
  destruct e; [apply handler_keeps_no_proto|apply onFinish_keeps_no_proto].
Qed.

Lemma step_keeps_durable `{DateCodec} e w :
  codec_lossless → store_valid w → sessionsCache w !! "__proto__" = None →
  write_succeeds e →
  durable w → durable (step e w).
Proof.
  intros Hc Hv Hno Hok Hd.
  destruct e as [env body | hook text out]; simpl in *.
  - by destruct (handler_saved_durable env body w Hc Hv Hno Hok) as [-> | ?].
  - subst out. destruct hook as [|id]; [done|].
    by apply onFinish_saved_durable.
Qed.

Lemma run_keeps_durable `{DateCodec} events w :
  codec_lossless → store_valid w → sessionsCache w !! "__proto__" = None →
  Forall write_succeeds events →
  durable w → durable (run events w).
Proof.
  intros Hc. revert w.
  induction events as [|e events IH]; intros w Hv Hno Hok Hd; [done|].
  apply Forall_cons in Hok as [He Hok]. simpl.
  apply IH; [by apply step_keeps_store_valid | by apply step_keeps_no_proto
             | done |].
  by apply step_keeps_durable.
Qed.

(** The metadata of the sessions are those of the [create] requests. *)
Lemma handler_keeps_metadata_carried `{DateCodec} env body w :
  json_carried (metadata_or_empty (Body.metadata body)) = true →
  metadata_carried w → metadata_carried (handler env body w).2.
Proof.
  intros Hmd Hv id s.
  unfold handler, dispatch, chat, createSession, deleteSession,
    getSessionInfo.
  repeat (case_match; simplify_eq/=; rewrite ?saveSessions_cache;
          try (by apply Hv)); simpl.
  - intros [[_ <-] | [_ Hs]]%lookup_insert_Some; [done|by eapply Hv].
  - intros [_ Hs]%lookup_delete_Some. by eapply Hv.
  - intros [_ Hs]%lookup_delete_Some. by eapply Hv.
  - intros [[_ <-] | [_ Hs]]%lookup_insert_Some; [|by eapply Hv].
    simpl. by eapply Hv.
Qed.

Lemma onFinish_keeps_metadata_carried `{DateCodec} hook text out w :
  metadata_carried w → metadata_carried (onFinish hook text out w).
Proof.
  intros Hv id s. destruct hook as [|id']; [by apply Hv|].
  unfold onFinish. rewrite saveSessions_cache. simpl.
  destruct (decide (id' = id)) as [->|Hne].
  - rewrite lookup_alter_eq.
    destruct (sessionsCache w !! id) as [s0|] eqn:Hs0; [|done].
    intros [= <-]. simpl. by eapply Hv.
  - rewrite lookup_alter_ne by done. by apply Hv.
Qed.

Lemma run_keeps_metadata_carried `{DateCodec} events w :
  Forall carried_request events →
  metadata_carried w → metadata_carried (run events w).
Proof.
  revert w. induction events as [|e events IH]; intros w Hok Hv; [done|].
  apply Forall_cons in Hok as [He Hok]. simpl. apply IH; [done|].
  destruct e as [env body | hook text out]; simpl in *.
  - by apply handler_keeps_metadata_carried.
  - by apply onFinish_keeps_metadata_carried.
Qed.

(** With metadata that JSON carries, a durable state comes back as it
    is. *)
Lemma durable_same `{DateCodec} w :
  durable w → metadata_carried w →
  sessionsCache (startup (sessionsFile w)) = sessionsCache w.
Proof.
  intros Hd Hmd. rewrite Hd. apply map_eq. intros id. rewrite lookup_fmap.
  destruct (sessionsCache w !! id) as [s|] eqn:Hs; [|done].
  simpl. f_equal. apply carried_same. by eapply Hmd.
Qed.

(** X9: as long as the disk writes succeed, a restart loses nothing but
    what JSON does not carry.  After any sequence of requests and stream
    completions on a fresh installation, initialising the module again on
    the file as it stands gives back every session of the cache under its
    key, with its id, its messages and its timestamps, and with its
    metadata as JSON carries them (an infinity read back as [null],
    negative zero as zero); when the metadata of the requests held no
    such number, it gives back exactly the cache (the runtime parsing the
    dates it prints to the same instant). *)
Theorem X9_restart_after_successful_writes `{DateCodec} (events : list Event) :
  codec_lossless →
  Forall write_succeeds events →
  sessionsCache (startup (sessionsFile (run events fresh_install)))
  = carried <$> sessionsCache (run events fresh_install)
  ∧ (Forall carried_request events →
     sessionsCache (startup (sessionsFile (run events fresh_install)))
     = sessionsCache (run events fresh_install)).
Proof.
  intros Hc Hok.
  assert (Hd : durable (run events fresh_install)).
  { by apply run_keeps_durable. }
  split; [exact Hd|].
  intros Hmd. apply durable_same; [done|].
  by apply run_keeps_metadata_carried.
Qed.

Lemma X9_restart_after_successful_writes_witness :
  let events := [Request sample_env big_request] in
  codec_lossless (H := millis_codec)
  ∧ Forall write_succeeds sample_round
  ∧ Forall carried_request sample_round
  ∧ sessionsCache
      (startup (H := millis_codec)
         (sessionsFile
            (run (H := millis_codec) sample_round
                 (fresh_install (H := millis_codec)))))
    = sessionsCache
        (run (H := millis_codec) sample_round
             (fresh_install (H := millis_codec)))
  ∧ Forall write_succeeds events
  ∧ sessionsCache
      (startup (H := millis_codec)
         (sessionsFile
            (run (H := millis_codec) events
                 (fresh_install (H := millis_codec)))))
    = carried <$> sessionsCache
        (run (H := millis_codec) events
             (fresh_install (H := millis_codec))).
Proof.
  intros events.
  assert (Hok : Forall write_succeeds sample_round)
    by (repeat constructor).
  assert (Hmd : Forall carried_request sample_round)
    by (repeat constructor).
  assert (Hok' : Forall write_succeeds events)
    by (repeat constructor).
  split; [apply millis_codec_lossless|]. split; [exact Hok|].
  split; [exact Hmd|]. split.
  - exact (proj2 (X9_restart_after_successful_writes (H := millis_codec) sample_round
                    millis_codec_lossless Hok) Hmd).
  - split; [exact Hok'|].
    exact (proj1 (X9_restart_after_successful_writes (H := millis_codec) events
                    millis_codec_lossless Hok')).
Defined.

(** X10: the file heals.  Whatever the file holds (after failed writes,
    say), on a cache with valid timestamps and no key [__proto__] a
    request that changes the world and whose write succeeds leaves a file
    from which a restart gives back every session of the cache, with its
    metadata as JSON carries them, and so does the completion of a
    session chat. *)
Theorem X10_successful_write_heals_the_file `{DateCodec} env body w id text :
  codec_lossless →
  store_valid w →
  sessionsCache w !! "__proto__" = None →
  write env = WriteOk →
  ((handler env body w).2 ≠ w → durable (handler env body w).2)
  ∧ durable (onFinish (AppendReply id) text WriteOk w).
Proof.
  intros Hc Hv Hno Hok. split.
  - intros Hne.
    by destruct (handler_saved_durable env body w Hc Hv Hno Hok) as [? | ?].
  - by apply onFinish_saved_durable.
Qed.

Lemma hello_cache_well_formed f :
  well_formed {| sessionsCache := sessionsCache hello_world;
                 sessionsFile := f |}.
Proof.
  intros id s Hs. simpl in Hs.
  apply lookup_singleton_Some in Hs as [<- <-].
  split; [done|]. split; [done|].
  split; [split; eexists; reflexivity|].
  simpl. constructor; [simpl; auto|]. constructor; [simpl; auto|].
  constructor.
Qed.

Lemma X10_successful_write_heals_the_file_witness :
  let request := chat_request "mcp-abc123" [mkChat "user" "and then?"] in
  codec_lossless (H := millis_codec)
  ∧ store_valid stale_world
  ∧ sessionsCache stale_world !! "__proto__" = None
  ∧ write sample_env = WriteOk
  ∧ ¬ durable (H := millis_codec) stale_world
  ∧ (handler (H := millis_codec) sample_env request stale_world).2
    ≠ stale_world
  ∧ durable (H := millis_codec)
      (handler (H := millis_codec) sample_env request stale_world).2.
Proof.
  intros request.
  assert (Hwf : store_valid stale_world)
    by apply well_formed_store_valid, hello_cache_well_formed.
  assert (Hno : sessionsCache stale_world !! "__proto__" = None)
    by (by apply lookup_singleton_ne).
  assert (Hne : (handler (H := millis_codec) sample_env request
                   stale_world).2 ≠ stale_world).
  { intros Heq. apply (f_equal sessionsFile) in Heq.
    vm_compute in Heq. discriminate Heq. }
  split; [apply millis_codec_lossless|]. split; [exact Hwf|].
  split; [exact Hno|]. split; [reflexivity|]. split.
  { unfold durable. intros Heq.
    apply (f_equal (λ m, m !! "mcp-abc123")) in Heq.
    vm_compute in Heq. discriminate Heq. }
  split; [exact Hne|].
  exact (proj1 (X10_successful_write_heals_the_file (H := millis_codec)
                  sample_env request stale_world "mcp-abc123" "hi"
                  millis_codec_lossless Hwf Hno eq_refl) Hne).
Defined.

(** ** Loading *)

(** A restart turns every timestamp into a valid date. *)
Lemma revive_stringify_idem `{DateCodec} s :
  codec_lossless →
  revive (stringify (revive (stringify s))) = revive (stringify s).
Proof.
  intros Hc. destruct s as [i ms md cr up].
  unfold revive, stringify, writtenDate. simpl.
  unfold codec_lossless in Hc.
  rewrite json_roundtrip_idem.
  f_equal; [destruct cr | destruct up]; simpl; rewrite ?Hc; simpl;
    by rewrite ?Hc.
Qed.

(** X11: one restart settles the store.  For every cache, also one
    holding invalid dates, the cache found after a restart is found again
    unchanged after a further restart (the runtime parsing the dates it
    prints to the same instant). *)
Theorem X11_second_restart_changes_nothing `{DateCodec} (w : World) :
  codec_lossless →
  sessionsCache (restart (restart w)) = sessionsCache (restart w).
Proof.
  intros Hc. rewrite (restart_cache (restart w)), (restart_cache w).
  rewrite <- fmap_delete, delete_delete_eq, <- map_fmap_compose.
  apply map_fmap_ext. intros id s _. simpl. by apply revive_stringify_idem.
Qed.

Lemma X11_second_restart_changes_nothing_witness :
  codec_lossless (H := millis_codec)
  ∧ sessionsCache (restart (H := millis_codec) undated_world)
    ≠ sessionsCache undated_world
  ∧ sessionsCache (restart (H := millis_codec)
                     (restart (H := millis_codec) undated_world))
    = sessionsCache (restart (H := millis_codec) undated_world).
Proof.
  split; [apply millis_codec_lossless|]. split.
  { rewrite restart_cache. intros Heq.
    apply (f_equal (λ m, createdAt <$> m !! "mcp-x")) in Heq.
    unfold undated_world in Heq. simpl in Heq.
    rewrite lookup_fmap, lookup_delete_ne, lookup_singleton_eq in Heq
      by discriminate.
    discriminate Heq. }
  exact (X11_second_restart_changes_nothing (H := millis_codec) undated_world
           millis_codec_lossless).
Defined.

(** X12: what [loadSessions] does to the cache.  With a sessions file
    whose entries are all session objects, every entry ends up in the
    cache under its key, replacing a session already cached under that
    key, and the sessions cached under other keys stay; at startup the
    cache then holds exactly the keys of the file.  When the loop meets
    an entry that is not an object it stops there: the entries before it
    have been set in the same way, the later ones are not loaded.  A date
    field that is missing is loaded as the invalid date, [null] as the
    epoch.  With no file, or one that cannot be read or parsed, the cache
    is left as it is. *)
Theorem X12_loadSessions_merges_the_file `{DateCodec}
    (cache : gmap string MCPSession) (d : gmap string StoredSession)
    (id : string) :
  let loaded f :=
    sessionsCache (loadSessions {| sessionsCache := cache;
                                   sessionsFile := f |}) in
  loaded (Document d) !! id
  = match d !! id with
    | Some stored => Some (revive stored)
    | None => cache !! id
    end
  ∧ loaded (Interrupted d) = loaded (Document d)
  ∧ dom (sessionsCache (startup (Document d))) = dom d
  ∧ dom (sessionsCache (startup (Interrupted d))) = dom d
  ∧ (∀ stored,
       (stored_createdAt stored = DateMissing →
        createdAt (revive stored) = InvalidDate)
       ∧ (stored_createdAt stored = DateNull →
          createdAt (revive stored) = Instant 0)
       ∧ (stored_updatedAt stored = DateMissing →
          updatedAt (revive stored) = InvalidDate)
       ∧ (stored_updatedAt stored = DateNull →
          updatedAt (revive stored) = Instant 0))
  ∧ loaded NoFile = cache
  ∧ loaded Unreadable = cache
  ∧ loaded Malformed = cache.
Proof.
  intros loaded. unfold loaded.
  split; [|split; [done|split; [|split; [|split]]]]; [| | | |done].
  - unfold loadSessions. simpl. rewrite loadSessions_fold.
    rewrite lookup_union, lookup_fmap.
    destruct (d !! id); simpl; [by destruct (cache !! id)|].
    by rewrite (left_id_L None union).
  - rewrite startup_document. apply dom_fmap_L.
  - change (sessionsCache (startup (Interrupted d)))
      with (sessionsCache (startup (Document d))).
    rewrite startup_document. apply dom_fmap_L.
  - intros stored. unfold revive. simpl.
    repeat split; by intros ->.
Qed.

(** A file with a missing date and an entry that is not an object: the
    first entry is loaded, with an invalid date. *)
Example startup_dateless_file :
  sessionsCache (startup (H := millis_codec) dateless_file)
  = {[ "mcp-x" :=
         {| conversationId := "mcp-x"; messages := []; metadata := JObj [];
            createdAt := InvalidDate; updatedAt := Instant 0 |} ]}.
Proof.
  change (sessionsCache (startup (H := millis_codec) dateless_file))
    with (sessionsCache
            (startup (H := millis_codec)
               (Document {[ "mcp-x" :=
                  {| stored_conversationId := "mcp-x"; stored_messages := [];
                     stored_metadata := JObj [];
                     stored_createdAt := DateMissing;
                     stored_updatedAt := DateNull |} ]}))).
  by rewrite startup_document, map_fmap_singleton.
Qed.

(** ** Sessions with an invalid date *)

(** X13: a session holding an invalid date (loaded from a file whose date
    string does not parse) cannot be read: [get] on it fails with status
    500, the [RangeError] of [toISOString] being caught by the handler.
    It can still be deleted. *)
Theorem X13_get_fails_on_invalid_date `{DateCodec} env w id s :
  truthy (openaiApiKey env) = true →
  id ≠ "" →
  sessionsCache w !! id = Some s →
  createdAt s = InvalidDate ∨ updatedAt s = InvalidDate →
  handler env (get_request id) w = (Fail 500 "Failed to process request", w)
  ∧ ∃ w', handler env (delete_request id) w
          = (Respond (Deleted true "Session deleted"), w')
          ∧ sessionsCache w' !! id = None.
Proof.
  intros Hk Hid Hs Hbad. split.
  - rewrite handler_configured, dispatch_get by done.
    unfold getSessionInfo. rewrite Hs.
    destruct Hbad as [-> | ->]; [done|]. by destruct (createdAt s).
  - eexists. rewrite handler_configured, dispatch_delete by done.
    rewrite deleteSession_present by (by exists s).
    split; [reflexivity|]. simpl. rewrite saveSessions_cache. simpl.
    apply lookup_delete_eq.
Qed.

Lemma X13_get_fails_on_invalid_date_witness :
  sessionsCache (startup (H := millis_codec) undated_file) !! "mcp-x"
  = Some undated_session
  ∧ handler (H := millis_codec) sample_env (get_request "mcp-x")
            (startup (H := millis_codec) undated_file)
    = (Fail 500 "Failed to process request",
       startup (H := millis_codec) undated_file).
Proof.
  assert (Hs : sessionsCache (startup (H := millis_codec) undated_file)
                 !! "mcp-x" = Some undated_session).
  { rewrite startup_undated_file. apply lookup_singleton_eq. }
  split; [exact Hs|].
  apply (X13_get_fails_on_invalid_date (H := millis_codec) sample_env
           (startup (H := millis_codec) undated_file) "mcp-x"
           undated_session eq_refl);
    [discriminate | exact Hs | by left].
Defined.

(** ** Rounds *)

(** The handler on a valid user turn. *)
Lemma handler_user_turn `{DateCodec} env w id session msgs m :
  truthy (openaiApiKey env) = true →
  id ≠ "" →
  sessionsCache w !! id = Some session →
  last msgs = Some m →
  chat_role m = "user" →
  let turn := {| role := user; content := chat_content m; name := None |} in
  handler env (chat_request id msgs) w
  = (Respond (DataStream (History (messages session ++ [turn]))
                         (AppendReply (conversationId session))),
     saveSessions (write env)
       {| sessionsCache :=
            <[id := set_updatedAt (Instant (clock env))
                      (push_message turn session)]> (sessionsCache w);
          sessionsFile := sessionsFile w |}).
Proof.
  intros Hk Hid Hs Hlast Hrole turn.
  rewrite handler_configured, dispatch_chat by done.
  by rewrite (chat_user_turn env w id session msgs m).
Qed.

(** X14: a whole round.  A session is created, a chat request whose
    newest message is a user's is sent on the returned id, the stream
    completes with the model's text, and [get] is called: the model was
    given the user message alone, the session then holds the user message
    followed by the assistant's, created at the first request's instant
    and updated at the second's, and [get] reports two messages. *)
Theorem X14_round_on_a_new_session `{DateCodec}
    env1 env2 env3 md earlier question text out w :
  truthy (openaiApiKey env1) = true →
  truthy (openaiApiKey env2) = true →
  truthy (openaiApiKey env3) = true →
  let id := generateId env1 in
  let asked := {| role := user; content := question; name := None |} in
  let answered := {| role := assistant; content := text; name := None |} in
  ∃ created w1 hook w2,
    handler env1 (create_request md) w
    = (Respond (Created id (metadata_or_empty md) created 0), w1)
    ∧ handler env2 (chat_request id (earlier ++ [mkChat "user" question])) w1
      = (Respond (DataStream (History [asked]) hook), w2)
    ∧ sessionsCache (onFinish hook text out w2) !! id
      = Some {| conversationId := id; messages := [asked; answered];
                metadata := metadata_or_empty md;
                createdAt := Instant (clock env1);
                updatedAt := Instant (clock env2) |}
    ∧ handler env3 (get_request id) (onFinish hook text out w2)
      = (Respond (SessionInfo id (metadata_or_empty md)
                              (toISOString (clock env1))
                              (toISOString (clock env2)) 2),
         onFinish hook text out w2).
Proof.
  intros Hk1 Hk2 Hk3 id asked answered.
  pose proof (generateId_nonempty env1) as Hid.
  pose proof (createSession_lookup env1 (metadata_or_empty md) w) as Hnew.
  set (w1 := (createSession env1 (metadata_or_empty md) w).2) in *.
  set (fresh := {| conversationId := generateId env1; messages := [];
                   metadata := metadata_or_empty md;
                   createdAt := Instant (clock env1);
                   updatedAt := Instant (clock env1) |}) in *.
  set (w2 := saveSessions (write env2)
               {| sessionsCache :=
                    <[id := set_updatedAt (Instant (clock env2))
                              (push_message asked fresh)]> (sessionsCache w1);
                  sessionsFile := sessionsFile w1 |}).
  exists (toISOString (clock env1)), w1, (AppendReply id), w2.
  split.
  { rewrite handler_configured, dispatch_create by done. reflexivity. }
  split.
  { rewrite (handler_user_turn env2 w1 id fresh _ (mkChat "user" question)
               Hk2 Hid Hnew) by (by rewrite ?last_snoc).
    reflexivity. }
  assert (Hlook :
    sessionsCache (onFinish (AppendReply id) text out w2) !! id
    = Some {| conversationId := id; messages := [asked; answered];
              metadata := metadata_or_empty md;
              createdAt := Instant (clock env1);
              updatedAt := Instant (clock env2) |}).
  { unfold onFinish, w2. rewrite !saveSessions_cache. simpl.
    rewrite lookup_alter_eq, lookup_insert_eq. reflexivity. }
  split; [exact Hlook|].
  rewrite handler_configured, dispatch_get by done.
  unfold getSessionInfo. by rewrite Hlook.
Qed.

Lemma X14_round_on_a_new_session_witness :
  truthy (openaiApiKey sample_env) = true
  ∧ ∃ created w1 hook w2,
      handler (H := millis_codec) sample_env (create_request None)
              (fresh_install (H := millis_codec))
      = (Respond (Created "mcp-4fzyo82mvyrk2j5x8c1q9w" (JObj []) created 0),
         w1)
      ∧ handler (H := millis_codec) sample_env
          (chat_request "mcp-4fzyo82mvyrk2j5x8c1q9w"
             ([mkChat "system" "You are a helpful assistant."]
              ++ [mkChat "user" "hello"])) w1
        = (Respond
             (DataStream
                (History [ {| role := user; content := "hello";
                              name := None |} ]) hook), w2)
      ∧ handler (H := millis_codec) sample_env
          (get_request "mcp-4fzyo82mvyrk2j5x8c1q9w")
          (onFinish (H := millis_codec) hook "hi" WriteOk w2)
        = (Respond (SessionInfo "mcp-4fzyo82mvyrk2j5x8c1q9w" (JObj [])
                                "3000" "3000" 2),
           onFinish (H := millis_codec) hook "hi" WriteOk w2).
Proof.
  split; [reflexivity|].
  destruct (X14_round_on_a_new_session (H := millis_codec)
              sample_env sample_env sample_env None
              [mkChat "system" "You are a helpful assistant."]
              "hello" "hi" WriteOk (fresh_install (H := millis_codec))
              eq_refl eq_refl eq_refl)
    as (created & w1 & hook & w2 & Hcreate & Hchat & _ & Hget).
  exists created, w1, hook, w2. by repeat split.
Defined.

(** X15: a reply that arrives after its session was deleted is dropped.
    When a session stored under its own id is deleted while the stream of
    a chat on it is still running, the completion of the stream does not
    bring the session back: the cache stays the one left by the
    deletion. *)
Theorem X15_late_reply_does_not_resurrect `{DateCodec}
    env1 env2 w id session msgs m text out :
  truthy (openaiApiKey env1) = true →
  truthy (openaiApiKey env2) = true →
  id ≠ "" →
  sessionsCache w !! id = Some session →
  conversationId session = id →
  last msgs = Some m →
  chat_role m = "user" →
  ∃ prompt hook w1 w2,
    handler env1 (chat_request id msgs) w
    = (Respond (DataStream prompt hook), w1)
    ∧ handler env2 (delete_request id) w1
      = (Respond (Deleted true "Session deleted"), w2)
    ∧ sessionsCache (onFinish hook text out w2) = delete id (sessionsCache w)
    ∧ sessionsCache (onFinish hook text out w2) !! id = None.
Proof.
  intros Hk1 Hk2 Hid Hs Hconv Hlast Hrole.
  set (turn := {| role := user; content := chat_content m; name := None |}).
  set (w1 := saveSessions (write env1)
               {| sessionsCache :=
                    <[id := set_updatedAt (Instant (clock env1))
                              (push_message turn session)]> (sessionsCache w);
                  sessionsFile := sessionsFile w |}).
  set (w2 := saveSessions (write env2)
               {| sessionsCache := delete id (sessionsCache w1);
                  sessionsFile := sessionsFile w1 |}).
  exists (History (messages session ++ [turn])),
    (AppendReply (conversationId session)), w1, w2.
  split.
  { by apply (handler_user_turn env1 w id session msgs m). }
  split.
  { rewrite handler_configured, dispatch_delete by done.
    rewrite deleteSession_present; [reflexivity|].
    unfold w1. rewrite saveSessions_cache. simpl.
    rewrite lookup_insert_eq. by eexists. }
  assert (Hcache : sessionsCache
                     (onFinish (AppendReply (conversationId session)) text
                               out w2)
                   = delete id (sessionsCache w)).
  { unfold onFinish, w2, w1. rewrite !saveSessions_cache. simpl.
    rewrite ?saveSessions_cache. simpl.
    rewrite Hconv, delete_insert_eq.
    apply map_eq. intros j. destruct (decide (id = j)) as [<-|Hne].
    - by rewrite lookup_alter_eq, lookup_delete_eq.
    - by rewrite lookup_alter_ne. }
  split; [exact Hcache|].
  rewrite Hcache. apply lookup_delete_eq.
Qed.

Lemma X15_late_reply_does_not_resurrect_witness :
  ∃ prompt hook w1 w2,
    handler (H := millis_codec) sample_env
      (chat_request "mcp-abc123" [mkChat "user" "and then?"]) hello_world
    = (Respond (DataStream prompt hook), w1)
    ∧ handler (H := millis_codec) sample_env (delete_request "mcp-abc123") w1
      = (Respond (Deleted true "Session deleted"), w2)
    ∧ sessionsCache (onFinish (H := millis_codec) hook "hi" WriteOk w2)
      = delete "mcp-abc123" (sessionsCache hello_world)
    ∧ sessionsCache (onFinish (H := millis_codec) hook "hi" WriteOk w2)
        !! "mcp-abc123" = None.
Proof.
  apply (X15_late_reply_does_not_resurrect (H := millis_codec)
           sample_env sample_env hello_world "mcp-abc123" hello_session
           [mkChat "user" "and then?"] (mkChat "user" "and then?")
           "hi" WriteOk);
    try reflexivity; discriminate.
Defined.

(** X16: two chats on one session are not serialised.  When a second
    chat request on a session is handled before the stream of the first
    has completed, the model is given the first question with the second
    but without the first answer, and once both streams have completed
    the history holds the two questions followed by the two answers. *)
Theorem X16_overlapping_chats_interleave `{DateCodec}
    env1 env2 w id session q1 q2 a1 a2 out1 out2 :
  truthy (openaiApiKey env1) = true →
  truthy (openaiApiKey env2) = true →
  id ≠ "" →
  sessionsCache w !! id = Some session →
  conversationId session = id →
  let asked1 := {| role := user; content := q1; name := None |} in
  let asked2 := {| role := user; content := q2; name := None |} in
  let answered1 := {| role := assistant; content := a1; name := None |} in
  let answered2 := {| role := assistant; content := a2; name := None |} in
  ∃ hook1 w1 hook2 w2,
    handler env1 (chat_request id [mkChat "user" q1]) w
    = (Respond (DataStream (History (messages session ++ [asked1])) hook1),
       w1)
    ∧ handler env2 (chat_request id [mkChat "user" q2]) w1
      = (Respond
           (DataStream (History (messages session ++ [asked1; asked2]))
                       hook2), w2)
    ∧ messages
        <$> (sessionsCache
               (onFinish hook2 a2 out2 (onFinish hook1 a1 out1 w2)) !! id)
      = Some (messages session
              ++ [asked1; asked2; answered1; answered2])%list.
Proof.
  intros Hk1 Hk2 Hid Hs Hconv asked1 asked2 answered1 answered2.
  set (s1 := set_updatedAt (Instant (clock env1))
               (push_message asked1 session)).
  set (w1 := saveSessions (write env1)
               {| sessionsCache := <[id := s1]> (sessionsCache w);
                  sessionsFile := sessionsFile w |}).
  set (s2 := set_updatedAt (Instant (clock env2)) (push_message asked2 s1)).
  set (w2 := saveSessions (write env2)
               {| sessionsCache := <[id := s2]> (sessionsCache w1);
                  sessionsFile := sessionsFile w1 |}).
  assert (Hs1 : sessionsCache w1 !! id = Some s1).
  { unfold w1. rewrite saveSessions_cache. simpl. apply lookup_insert_eq. }
  exists (AppendReply id), w1, (AppendReply id), w2.
  split.
  { rewrite (handler_user_turn env1 w id session _ (mkChat "user" q1))
      by done.
    by rewrite Hconv. }
  split.
  { rewrite (handler_user_turn env2 w1 id s1 _ (mkChat "user" q2)) by done.
    simpl. rewrite Hconv, <- app_assoc. reflexivity. }
  unfold onFinish. rewrite !saveSessions_cache. simpl.
  rewrite !lookup_alter_eq. unfold w2. rewrite saveSessions_cache. simpl.
  rewrite lookup_insert_eq. simpl.
  by rewrite <- !app_assoc.
Qed.

Lemma X16_overlapping_chats_interleave_witness :
  ∃ hook1 w1 hook2 w2,
    handler (H := millis_codec) sample_env
      (chat_request "mcp-abc123" [mkChat "user" "one"]) hello_world
    = (Respond
         (DataStream
            (History (messages hello_session
                      ++ [ {| role := user; content := "one";
                              name := None |} ])) hook1), w1)
    ∧ handler (H := millis_codec) sample_env
        (chat_request "mcp-abc123" [mkChat "user" "two"]) w1
      = (Respond
           (DataStream
              (History (messages hello_session
                        ++ [ {| role := user; content := "one";
                                name := None |};
                             {| role := user; content := "two";
                                name := None |} ])) hook2), w2)
    ∧ messages
        <$> (sessionsCache
               (onFinish (H := millis_codec) hook2 "second" WriteOk
                  (onFinish (H := millis_codec) hook1 "first" WriteOk w2))
               !! "mcp-abc123")
      = Some (messages hello_session
              ++ [ {| role := user; content := "one"; name := None |};
                   {| role := user; content := "two"; name := None |};
                   {| role := assistant; content := "first"; name := None |};
                   {| role := assistant; content := "second";
                      name := None |} ])%list.
Proof.
  apply (X16_overlapping_chats_interleave (H := millis_codec)
           sample_env sample_env hello_world "mcp-abc123" hello_session
           "one" "two" "first" "second" WriteOk WriteOk);
    try reflexivity; discriminate.
Defined.

(** ** Histories only grow *)

(** What a request other than [create] can do to the cache. *)
Lemma handler_cache_cases `{DateCodec} env body w :
  or_default (Body.action body) "chat" ≠ "create" →
  sessionsCache (handler env body w).2 = sessionsCache w
  ∨ (∃ j, sessionsCache (handler env body w).2 = delete j (sessionsCache w))
  ∨ (∃ j s m d,
       sessionsCache w !! j = Some s
       ∧ sessionsCache (handler env body w).2
         = <[j := set_updatedAt d (push_message m s)]> (sessionsCache w)).
Proof.
  intros Hnc. apply String.eqb_neq in Hnc.
  unfold handler, dispatch, chat, createSession, deleteSession,
    getSessionInfo.
  rewrite Hnc.
  repeat (case_match; simplify_eq/=; rewrite ?saveSessions_cache;
          try (by left); try (by right; left; eexists);
          try (by right; right; eexists _, _, _, _)).
Qed.

Lemma unchanged_session_is_extended (s : MCPSession) :
  conversationId s = conversationId s
  ∧ metadata s = metadata s
  ∧ createdAt s = createdAt s
  ∧ ∃ added, messages s = (messages s ++ added)%list
             ∧ (length added ≤ 1)%nat.
Proof.
  repeat split. exists []. split; [by rewrite app_nil_r | simpl; lia].
Qed.

(** X17: between its creation and its deletion a session is only ever
    extended.  An event other than a [create] request (any other request,
    any stream completion) leaves the id, the metadata and the creation
    date of every session as they were and appends at most one message to
    its history, nothing being edited or reordered; and no such event
    adds a session to the store. *)
Theorem X17_history_is_append_only `{DateCodec} e w id :
  ¬ is_create e →
  match sessionsCache w !! id, sessionsCache (step e w) !! id with
  | Some s, Some s' =>
      conversationId s' = conversationId s
      ∧ metadata s' = metadata s
      ∧ createdAt s' = createdAt s
      ∧ ∃ added, messages s' = (messages s ++ added)%list
                 ∧ (length added ≤ 1)%nat
  | None, Some _ => False
  | _, None => True
  end.
Proof.
  intros Hnc. destruct e as [env body | hook text out]; simpl in *.
  - destruct (handler_cache_cases env body w Hnc)
      as [-> | [[j ->] | (j & s0 & m & d & Hj & ->)]].
    + destruct (sessionsCache w !! id); [|done].
      apply unchanged_session_is_extended.
    + destruct (decide (j = id)) as [->|Hne].
      * rewrite lookup_delete_eq. by destruct (sessionsCache w !! id).
      * rewrite lookup_delete_ne by done.
        destruct (sessionsCache w !! id); [|done].
        apply unchanged_session_is_extended.
    + destruct (decide (j = id)) as [->|Hne].
      * rewrite lookup_insert_eq, Hj. simpl. repeat split.
        exists [m]. split; [done | simpl; lia].
      * rewrite lookup_insert_ne by done.
        destruct (sessionsCache w !! id); [|done].
        apply unchanged_session_is_extended.
  - destruct hook as [|id']; simpl.
    + destruct (sessionsCache w !! id); [|done].
      apply unchanged_session_is_extended.
    + unfold onFinish. rewrite saveSessions_cache. simpl.
      destruct (decide (id' = id)) as [->|Hne].
      * rewrite lookup_alter_eq. destruct (sessionsCache w !! id); [|done].
        simpl. repeat split. eexists [_]. split; [done | simpl; lia].
      * rewrite lookup_alter_ne by done.
        destruct (sessionsCache w !! id); [|done].
        apply unchanged_session_is_extended.
Qed.

Lemma X17_history_is_append_only_witness :
  let e := Request sample_env
             (chat_request "mcp-abc123" [mkChat "user" "and then?"]) in
  ¬ is_create e
  ∧ match sessionsCache hello_world !! "mcp-abc123",
          sessionsCache (step (H := millis_codec) e hello_world)
            !! "mcp-abc123" with
    | Some s, Some s' =>
        conversationId s' = conversationId s
        ∧ metadata s' = metadata s
        ∧ createdAt s' = createdAt s
        ∧ ∃ added, messages s' = (messages s ++ added)%list
                   ∧ (length added ≤ 1)%nat
    | None, Some _ => False
    | _, None => True
    end.
Proof.
  intros e.
  assert (Hnc : ¬ is_create e) by discriminate.
  split; [exact Hnc|].
  exact (X17_history_is_append_only (H := millis_codec) e hello_world
           "mcp-abc123" Hnc).
Defined.

(** * Properties of the pages *)

(** ** Strings *)

Lemma string_app_cons (x : ascii) (a b : string) :
  String x a +:+ b = String x (a +:+ b).
Proof. reflexivity. Qed.

Lemma string_app_assoc (a b c : string) : (a +:+ b) +:+ c = a +:+ (b +:+ c).
Proof.
  induction a as [|x a IH]; [done|]. by rewrite !string_app_cons, IH.
Qed.

Lemma string_app_nil_r (a : string) : a +:+ "" = a.
Proof. induction a as [|x a IH]; [done|]. by rewrite string_app_cons, IH. Qed.

Lemma prefix_app (n post : string) : String.prefix n (n +:+ post) = true.
Proof.
  induction n as [|a n IH]; simpl; [by destruct post|].
  by destruct (ascii_dec a a).
Qed.

Lemma prefix_split (n h : string) :
  String.prefix n h = true → ∃ post, h = n +:+ post.
Proof.
  revert h. induction n as [|a n IH]; intros h Hp; [by exists h|].
  destruct h as [|b h]; [done|]. simpl in Hp.
  destruct (ascii_dec a b) as [->|]; [|done].
  destruct (IH h Hp) as [post ->]. by exists post.
Qed.

Lemma includes_here (h n : string) :
  String.prefix n h = true → includes h n = true.
Proof. intros Hp. destruct h; simpl in *; by rewrite Hp. Qed.

Lemma includes_later (a : ascii) (h n : string) :
  includes h n = true → includes (String a h) n = true.
Proof. intros Hin. simpl. rewrite Hin. apply orb_true_r. Qed.

Lemma includes_cases (h n : string) :
  includes h n = true →
  String.prefix n h = true
  ∨ ∃ a rest, h = String a rest ∧ includes rest n = true.
Proof.
  destruct h as [|a h]; simpl.
  - rewrite orb_false_r. by left.
  - intros [Hp | Hin]%orb_true_iff; [by left|right; eauto].
Qed.

Lemma includes_split (h n : string) :
  includes h n = true ↔ ∃ pre post, h = pre +:+ n +:+ post.
Proof.
  split.
  - induction h as [|a h IH]; intros Hin.
    + destruct (includes_cases _ _ Hin) as [Hp | (b & rest & Heq & _)];
        [|done].
      destruct (prefix_split _ _ Hp) as [post ->]. by exists "", post.
    + destruct (includes_cases _ _ Hin) as [Hp | (b & rest & [= <- <-] & Hr)].
      * destruct (prefix_split _ _ Hp) as [post ->]. by exists "", post.
      * destruct (IH Hr) as (pre & post & ->).
        by exists (String a pre), post.
  - intros (pre & post & ->). induction pre as [|a pre IH].
    + apply includes_here. exact (prefix_app n post).
    + rewrite string_app_cons. by apply includes_later.
Qed.

Lemma includes_empty (h : string) : includes h "" = true.
Proof. apply includes_split. exists "", h. done. Qed.

Lemma includes_trans (a b c : string) :
  includes a b = true → includes b c = true → includes a c = true.
Proof.
  intros (p1 & q1 & ->)%includes_split (p2 & q2 & ->)%includes_split.
  apply includes_split. exists (p1 +:+ p2), (q2 +:+ q1).
  by rewrite !string_app_assoc.
Qed.

Lemma substring_0_split (m : nat) (s : string) :
  ∃ post, s = substring 0 m s +:+ post.
Proof.
  revert m. induction s as [|a s IH]; intros m.
  - exists "". by destruct m.
  - destruct m as [|m]; [by exists (String a s)|].
    destruct (IH m) as [post Heq]. exists post. simpl.
    by rewrite string_app_cons, <- Heq.
Qed.

Lemma substring_split (n m : nat) (s : string) :
  ∃ pre post, s = pre +:+ substring n m s +:+ post.
Proof.
  revert n. induction s as [|a s IH]; intros n.
  - exists "", "". by destruct n, m.
  - destruct n as [|n].
    + destruct (substring_0_split m (String a s)) as [post Heq].
      by exists "", post.
    + destruct (IH n) as (pre & post & Heq).
      exists (String a pre), post. simpl.
      by rewrite string_app_cons, <- Heq.
Qed.

Lemma includes_substring (n m : nat) (s : string) :
  includes s (substring n m s) = true.
Proof. apply includes_split, substring_split. Qed.

Lemma map_chars_app f (a b : string) :
  map_chars f (a +:+ b) = map_chars f a +:+ map_chars f b.
Proof.
  induction a as [|x a IH]; [done|].
  rewrite string_app_cons. simpl. by rewrite IH, string_app_cons.
Qed.

Lemma map_chars_substring f (n m : nat) (s : string) :
  map_chars f (substring n m s) = substring n m (map_chars f s).
Proof.
  revert n m. induction s as [|a s IH]; intros [|n] [|m]; simpl;
    by rewrite ?IH.
Qed.

Lemma map_chars_length f (s : string) :
  String.length (map_chars f s) = String.length s.
Proof. induction s as [|a s IH]; simpl; [done|]. by rewrite IH. Qed.

Lemma lower_upper_char (c : ascii) : lower_char (upper_char c) = lower_char c.
Proof. destruct c as [[] [] [] [] [] [] [] []]; reflexivity. Qed.

Lemma toLowerCase_toUpperCase (s : string) :
  toLowerCase (toUpperCase s) = toLowerCase s.
Proof.
  induction s as [|a s IH]; simpl; [done|].
  unfold toLowerCase, toUpperCase in *. simpl.
  by rewrite lower_upper_char, IH.
Qed.

(** Letter case apart, inclusion is kept by the case conversion. *)
Lemma includes_toLowerCase (h n : string) :
  includes h n = true → includes (toLowerCase h) (toLowerCase n) = true.
Proof.
  intros (pre & post & ->)%includes_split. apply includes_split.
  exists (toLowerCase pre), (toLowerCase post).
  unfold toLowerCase. by rewrite !map_chars_app.
Qed.

(** ** Searching the sidebar *)

(** The shortcut for the empty query agrees with the filter. *)
Lemma filteredSessions_filter (q : string) (ss : list Summary.t) :
  filteredSessions q ss
  = List.filter
      (λ session, includes (toLowerCase (Summary.id session)) (toLowerCase q))
      ss.
Proof.
  unfold filteredSessions. destruct (String.eqb_spec q "") as [->|Hq]; [|done].
  induction ss as [|s ss IH]; [done|]. simpl.
  rewrite includes_empty. by rewrite <- IH.
Qed.

Lemma filter_sublist {A} (f : A → bool) (l : list A) :
  sublist (List.filter f l) l.
Proof.
  induction l as [|x l IH]; simpl; [constructor|].
  destruct (f x); by constructor.
Qed.

(** X18: the search of the sidebar, for a query and ids made of ASCII
    characters.  The sessions shown are sessions of the list, in the
    order of the list, and they are exactly those whose id includes the
    query when both are put in lower case; the empty query shows every
    session. *)
Theorem X18_search_is_sound_and_complete (q : string) (ss : list Summary.t) :
  ascii_only q = true →
  Forall (λ session, ascii_only (Summary.id session) = true) ss →
  sublist (filteredSessions q ss) ss
  ∧ (∀ session,
       session ∈ filteredSessions q ss
       ↔ session ∈ ss
         ∧ includes (toLowerCase (Summary.id session)) (toLowerCase q) = true)
  ∧ filteredSessions "" ss = ss.
Proof.
  intros _ _. rewrite filteredSessions_filter.
  split; [apply filter_sublist|]. split; [|done].
  intros session. rewrite !list_elem_of_In. apply filter_In.
Qed.

Lemma X18_search_is_sound_and_complete_witness :
  ascii_only "ABC" = true
  ∧ Forall (λ session, ascii_only (Summary.id session) = true) sample_sessions
  ∧ filteredSessions "ABC" sample_sessions
    = [Summary.mk "mcp-abc123" "2000" 0]
  ∧ sublist (filteredSessions "ABC" sample_sessions) sample_sessions.
Proof.
  assert (Hids : Forall (λ session, ascii_only (Summary.id session) = true)
                        sample_sessions) by (repeat constructor).
  split; [reflexivity|]. split; [exact Hids|]. split; [reflexivity|].
  exact (proj1 (X18_search_is_sound_and_complete "ABC" sample_sessions
                  eq_refl Hids)).
Defined.

(** X19: a longer query narrows the search (queries and ids made of
    ASCII characters).  When a query occurs inside another one, every
    session shown for the longer query is shown for the shorter one, in
    the same order. *)
Theorem X19_longer_query_narrows (q1 q2 : string) (ss : list Summary.t) :
  ascii_only q1 = true →
  ascii_only q2 = true →
  Forall (λ session, ascii_only (Summary.id session) = true) ss →
  includes q2 q1 = true →
  sublist (filteredSessions q2 ss) (filteredSessions q1 ss).
Proof.
  intros _ _ _ Hin. rewrite !filteredSessions_filter.
  apply includes_toLowerCase in Hin.
  induction ss as [|s ss IH]; simpl; [constructor|].
  destruct (includes (toLowerCase (Summary.id s)) (toLowerCase q2)) eqn:H2.
  - rewrite (includes_trans _ _ _ H2 Hin). by constructor.
  - destruct (includes (toLowerCase (Summary.id s)) (toLowerCase q1));
      [by constructor|done].
Qed.

Lemma X19_longer_query_narrows_witness :
  includes "abc" "ab" = true
  ∧ filteredSessions "ab" sample_sessions
    = [Summary.mk "mcp-abc123" "2000" 0; Summary.mk "mcp-abd999" "3000" 5]
  ∧ sublist (filteredSessions "abc" sample_sessions)
            (filteredSessions "ab" sample_sessions).
Proof.
  split; [reflexivity|]. split; [reflexivity|].
  apply (X19_longer_query_narrows "ab" "abc" sample_sessions);
    try reflexivity.
  repeat constructor.
Defined.

(** ** The label of a session *)

Lemma formatSessionId_lower (id : string) :
  ∃ n, toLowerCase (formatSessionId id) = substring n 8 (toLowerCase id).
Proof.
  unfold formatSessionId.
  destruct (String.prefix "mcp-" id); [exists 4%nat|exists 0%nat];
    rewrite toLowerCase_toUpperCase; apply map_chars_substring.
Qed.

(** X20: the label shown for a session finds it (ids made of ASCII
    characters).  Typing the label that [formatSessionId] gives for a
    session of the list into the search box keeps that session in the
    list shown. *)
Theorem X20_label_finds_its_session (session : Summary.t)
    (ss : list Summary.t) :
  ascii_only (Summary.id session) = true →
  session ∈ ss →
  session ∈ filteredSessions (formatSessionId (Summary.id session)) ss.
Proof.
  intros _ Hin. rewrite filteredSessions_filter.
  apply list_elem_of_In, filter_In. split; [by apply list_elem_of_In|].
  destruct (formatSessionId_lower (Summary.id session)) as [n ->].
  apply includes_substring.
Qed.

Lemma X20_label_finds_its_session_witness :
  formatSessionId "mcp-4fzyo82mvyrk2j5x8c1q9w" = "4FZYO82M"
  ∧ filteredSessions "4FZYO82M" sample_sessions
    = [Summary.mk "mcp-4fzyo82mvyrk2j5x8c1q9w" "1000" 2]
  ∧ Summary.mk "mcp-4fzyo82mvyrk2j5x8c1q9w" "1000" 2
    ∈ filteredSessions
        (formatSessionId
           (Summary.id (Summary.mk "mcp-4fzyo82mvyrk2j5x8c1q9w" "1000" 2)))
        sample_sessions.
Proof.
  split; [reflexivity|]. split; [reflexivity|].
  apply (X20_label_finds_its_session
           (Summary.mk "mcp-4fzyo82mvyrk2j5x8c1q9w" "1000" 2)
           sample_sessions); [reflexivity|].
  apply list_elem_of_here.
Defined.

Lemma substring_of_head (n m k : nat) (s : string) :
  (n + m ≤ k)%nat → substring n m (substring 0 k s) = substring n m s.
Proof.
  revert n m k. induction s as [|a s IH]; intros n m k Hk.
  - by destruct k.
  - destruct k as [|k].
    + assert (n = 0%nat ∧ m = 0%nat) as [-> ->] by lia. done.
    + destruct n as [|n]; simpl.
      * destruct m as [|m]; [done|]. f_equal. apply (IH 0%nat). lia.
      * apply IH. lia.
Qed.

Lemma prefix_of_head (p : string) (k : nat) (s : string) :
  (String.length p ≤ k)%nat →
  String.prefix p (substring 0 k s) = String.prefix p s.
Proof.
  revert k s. induction p as [|c p IH]; intros k s Hk.
  - by destruct (substring 0 k s), s.
  - destruct k as [|k]; [simpl in Hk; lia|].
    destruct s as [|a s]; [done|]. simpl.
    destruct (ascii_dec c a); [|done]. apply IH. simpl in Hk. lia.
Qed.

Lemma formatSessionId_of_head (id : string) :
  formatSessionId (substring 0 12 id) = formatSessionId id.
Proof.
  unfold formatSessionId.
  rewrite (prefix_of_head "mcp-" 12 id) by (simpl; lia).
  rewrite !substring_of_head by lia. done.
Qed.

(** X21: the label of a session in the sidebar (ids made of ASCII
    characters).  It has at most eight characters and depends on the
    first twelve characters of the id only, so that two sessions whose
    ids agree on them carry the same label;
    for a generated id it is the first eight characters of the random
    part, in upper case. *)
Theorem X21_label_is_eight_characters_of_the_id (id1 id2 : string) env :
  ascii_only id1 = true →
  ascii_only id2 = true →
  ascii_only (generateId env) = true →
  (String.length (formatSessionId id1) ≤ 8)%nat
  ∧ (substring 0 12 id1 = substring 0 12 id2 →
     formatSessionId id1 = formatSessionId id2)
  ∧ formatSessionId (generateId env)
    = toUpperCase
        (substring 0 8 (substring 2 13 (random1 env)
                        +:+ substring 2 13 (random2 env))).
Proof.
  intros _ _ _. split; [|split].
  - unfold formatSessionId.
    destruct (String.prefix "mcp-" id1); unfold toUpperCase;
      rewrite map_chars_length; apply substring_length_le.
  - intros Heq.
    by rewrite <- (formatSessionId_of_head id1),
                <- (formatSessionId_of_head id2), Heq.
  - unfold formatSessionId.
    rewrite generateId_prefixed. reflexivity.
Qed.

Lemma X21_label_is_eight_characters_of_the_id_witness :
  ascii_only "mcp-4fzyo82mvyrk2j5x8c1q9w" = true
  ∧ ascii_only "mcp-4fzyo82mzzzzzzzzzzzzz" = true
  ∧ generateId sample_env = "mcp-4fzyo82mvyrk2j5x8c1q9w"
  ∧ formatSessionId "mcp-4fzyo82mvyrk2j5x8c1q9w" = "4FZYO82M"
  ∧ formatSessionId "mcp-4fzyo82mvyrk2j5x8c1q9w"
    = formatSessionId "mcp-4fzyo82mzzzzzzzzzzzzz".
Proof.
  split; [reflexivity|]. split; [reflexivity|]. split; [reflexivity|].
  split; [reflexivity|].
  apply (X21_label_is_eight_characters_of_the_id
           "mcp-4fzyo82mvyrk2j5x8c1q9w" "mcp-4fzyo82mzzzzzzzzzzzzz"
           sample_env eq_refl eq_refl eq_refl).
Defined.

(** ** Relative times *)

Lemma div_bounds (d k : Z) :
  (0 < k)%Z → (k * (d / k) ≤ d < k * (d / k + 1))%Z.
Proof.
  intros Hk. pose proof (Z.div_mod d k ltac:(lia)).
  pose proof (Z.mod_pos_bound d k Hk). lia.
Qed.

(** X22: the relative time shown for a session whose date parses to an
    instant, [d] being the milliseconds from that instant to now.  Below
    one minute, and for a date in the future, it is the word for
    just now; from one minute it is the whole number of minutes, between
    1 and 59; from one hour the whole number of hours, between 1 and 23;
    from one day the whole number of days, between 1 and 6; from seven
    days on it is the date in the form of the locale. *)
Theorem X22_relative_time_buckets `{DateCodec}
    (toLocaleDateString : Date → string) (dateString : string) (now t : Z) :
  parseDate dateString = Instant t →
  let d := now - t in
  let shown := formatRelativeTime toLocaleDateString dateString now in
  ((d < 60000)%Z → shown = "刚刚")
  ∧ ((60000 ≤ d < 3600000)%Z →
     ∃ n : Z, (1 ≤ n ≤ 59)%Z ∧ (60000 * n ≤ d < 60000 * (n + 1))%Z
              ∧ shown = decimal n +:+ "分钟前")
  ∧ ((3600000 ≤ d < 86400000)%Z →
     ∃ n : Z, (1 ≤ n ≤ 23)%Z ∧ (3600000 * n ≤ d < 3600000 * (n + 1))%Z
              ∧ shown = decimal n +:+ "小时前")
  ∧ ((86400000 ≤ d < 604800000)%Z →
     ∃ n : Z, (1 ≤ n ≤ 6)%Z ∧ (86400000 * n ≤ d < 86400000 * (n + 1))%Z
              ∧ shown = decimal n +:+ "天前")
  ∧ ((604800000 ≤ d)%Z → shown = toLocaleDateString (Instant t)).
Proof.
  intros Hparse d shown. subst shown. unfold formatRelativeTime.
  rewrite Hparse. fold d.
  change (1000 * 60 * 60 * 24) with 86400000.
  change (1000 * 60 * 60) with 3600000.
  change (1000 * 60) with 60000.
  pose proof (div_bounds d 60000 ltac:(lia)) as Hm.
  pose proof (div_bounds d 3600000 ltac:(lia)) as Hh.
  pose proof (div_bounds d 86400000 ltac:(lia)) as Hd.
  destruct (Z.ltb_spec (d / 60000) 1);
    [|destruct (Z.ltb_spec (d / 60000) 60);
      [|destruct (Z.ltb_spec (d / 3600000) 24);
        [|destruct (Z.ltb_spec (d / 86400000) 7)]]].
  all: repeat split; intros; try lia; try done.
  - exists (d / 60000). repeat split; try lia.
  - exists (d / 3600000). repeat split; try lia.
  - exists (d / 86400000). repeat split; try lia.
Qed.

Lemma X22_relative_time_buckets_witness :
  parseDate (DateCodec := millis_codec) "1000" = Instant 1000
  ∧ formatRelativeTime (H := millis_codec) (λ _, "1970/1/1") "1000" 301001
    = "5分钟前".
Proof.
  split; [reflexivity|].
  destruct (X22_relative_time_buckets (H := millis_codec)
              (λ _, "1970/1/1") "1000" 301001 1000 eq_refl)
    as (_ & Hminutes & _).
  destruct Hminutes as (n & Hn & Hd & ->); [lia|].
  assert (n = 5)%Z as -> by lia. reflexivity.
Defined.

(** An invalid date is shown in the form of the locale. *)
Lemma formatRelativeTime_invalid `{DateCodec}
    (toLocaleDateString : Date → string) (dateString : string) (now : Z) :
  parseDate dateString = InvalidDate →
  formatRelativeTime toLocaleDateString dateString now
  = toLocaleDateString InvalidDate.
Proof. intros Hp. unfold formatRelativeTime. by rewrite Hp. Qed.

(** ** The loaded history *)

Lemma decimal_inj (n m : Z) : decimal n = decimal m → n = m.
Proof.
  unfold decimal. intros Heq.
  apply (f_equal NilEmpty.int_of_string) in Heq.
  rewrite !NilEmpty.isi in Heq. injection Heq as Heq.
  apply (f_equal Z.of_int) in Heq. by rewrite !DecimalZ.of_to in Heq.
Qed.

Lemma formatFrom_ids (index : nat) (msgs : list ChatMessage) (m : UIMessage) :
  m ∈ formatFrom index msgs →
  ∃ k, (index ≤ k)%nat ∧ ui_id m = "msg-" +:+ decimal (Z.of_nat k).
Proof.
  revert index. induction msgs as [|msg msgs IH]; intros index Hin.
  - by apply elem_of_nil in Hin.
  - apply elem_of_cons in Hin as [-> | Hin].
    + exists index. by split.
    + destruct (IH (S index) Hin) as (k & Hk & Hid).
      exists k. split; [lia|done].
Qed.

Lemma formatFrom_NoDup (index : nat) (msgs : list ChatMessage) :
  NoDup (ui_id <$> formatFrom index msgs).
Proof.
  revert index. induction msgs as [|msg msgs IH]; intros index; simpl.
  - constructor.
  - constructor; [|apply IH].
    intros (m & Hid & Hin)%list_elem_of_fmap.
    destruct (formatFrom_ids _ _ _ Hin) as (k & Hk & Hidk).
    rewrite Hidk in Hid. simpl in Hid.
    injection Hid as Hid. apply decimal_inj in Hid. lia.
Qed.

Lemma formatFrom_contents (index : nat) (msgs : list ChatMessage) :
  (λ m, mkChat (ui_role m) (ui_content m)) <$> formatFrom index msgs = msgs.
Proof.
  revert index. induction msgs as [|[r c] msgs IH]; intros index; simpl;
    [done|]. by rewrite IH.
Qed.

Lemma formatFrom_has_system (index : nat) (msgs : list ChatMessage) :
  existsb (λ m, ui_role m =? "system") (formatFrom index msgs)
  = existsb (λ msg, chat_role msg =? "system") msgs.
Proof.
  revert index. induction msgs as [|msg msgs IH]; intros index; simpl;
    [done|]. by rewrite IH.
Qed.

(** X23: the chat shown for a loaded session.  For a non-empty history
    the page shows every loaded message, in order, with its role and
    content; it puts its system message in front exactly when the
    history has none; so the chat always holds a system message, and no
    two of its messages have the same id. *)
Theorem X23_loaded_history (sessionMessages : list ChatMessage) :
  sessionMessages ≠ [] →
  ∃ shown,
    loadedMessages sessionMessages = Some shown
    ∧ existsb (λ m, ui_role m =? "system") shown = true
    ∧ NoDup (ui_id <$> shown)
    ∧ ((λ m, mkChat (ui_role m) (ui_content m)) <$> shown = sessionMessages
       ∨ shown = system_prompt :: formatFrom 0 sessionMessages
         ∧ existsb (λ msg, chat_role msg =? "system") sessionMessages = false
         ∧ (λ m, mkChat (ui_role m) (ui_content m))
             <$> formatFrom 0 sessionMessages = sessionMessages).
Proof.
  intros Hne. destruct sessionMessages as [|msg rest]; [done|].
  unfold loadedMessages.
  destruct (existsb (λ m, ui_role m =? "system")
                    (formatFrom 0 (msg :: rest))) eqn:Hsys.
  - eexists. split; [reflexivity|]. split; [done|].
    split; [apply formatFrom_NoDup|]. left. apply formatFrom_contents.
  - eexists. split; [reflexivity|]. split; [done|]. split.
    + rewrite fmap_cons. constructor; [|apply formatFrom_NoDup].
      intros (m & Hid & Hin)%list_elem_of_fmap.
      destruct (formatFrom_ids _ _ _ Hin) as (k & _ & Hidk).
      rewrite Hidk in Hid. discriminate Hid.
    + right. split; [done|]. split; [|apply formatFrom_contents].
      rewrite <- (formatFrom_has_system 0 (msg :: rest)). exact Hsys.
Qed.

Lemma X23_loaded_history_witness :
  [mkChat "user" "hello"; mkChat "assistant" "hi"] ≠ []
  ∧ loadedMessages [mkChat "user" "hello"; mkChat "assistant" "hi"]
    = Some [ system_prompt;
             mkUI "msg-0" "user" "hello";
             mkUI "msg-1" "assistant" "hi" ].
Proof.
  split; [discriminate|].
  destruct (X23_loaded_history [mkChat "user" "hello"; mkChat "assistant" "hi"]
              ltac:(discriminate)) as (shown & Hshown & _).
  rewrite Hshown. vm_compute in Hshown. by injection Hshown as <-.
Defined.

(** ** Links in a message *)

Lemma chars_app (a b : string) : chars (a +:+ b) = (chars a ++ chars b)%list.
Proof.
  induction a as [|x a IH]; [done|].
  rewrite string_app_cons. simpl. by rewrite IH.
Qed.

Lemma drop_chars_app (a b : string) : drop_chars (String.length a) (a +:+ b) = b.
Proof. induction a as [|x a IH]; [by destruct b|]. exact IH. Qed.

Lemma non_space_run_split (s : string) :
  ∃ tail, s = non_space_run s +:+ tail.
Proof.
  induction s as [|c s [tail IH]]; [by exists ""|]. simpl.
  destruct (is_space c); [by exists (String c s)|].
  exists tail. by rewrite string_app_cons, <- IH.
Qed.

(** A match at the start of [s] is a prefix of [s] of at least eight
    characters that begins with [http]. *)
Lemma url_at_split (s url : string) :
  url_at s = Some url →
  (∃ tail, s = url +:+ tail)
  ∧ (8 ≤ String.length url)%nat
  ∧ String.prefix "http" url = true.
Proof.
  unfold url_at.
  destruct (String.prefix "https://" s) eqn:Hs.
  - destruct (prefix_split _ _ Hs) as [post ->].
    change (drop_chars 8 ("https://" +:+ post)) with post.
    destruct (non_space_run_split post) as [tail Hpost].
    destruct (non_space_run post) as [|c run] eqn:Hrun; [done|].
    intros [= <-]. split; [|split; [simpl; lia|done]].
    exists tail. rewrite string_app_assoc. by rewrite <- Hpost.
  - destruct (String.prefix "http://" s) eqn:Hp; [|done].
    destruct (prefix_split _ _ Hp) as [post ->].
    change (drop_chars 7 ("http://" +:+ post)) with post.
    destruct (non_space_run_split post) as [tail Hpost].
    destruct (non_space_run post) as [|c run] eqn:Hrun; [done|].
    intros [= <-]. split; [|split; [simpl; lia|done]].
    exists tail. rewrite string_app_assoc. by rewrite <- Hpost.
Qed.

Lemma anchor_keeps_url (url : string) :
  sublist (chars url) (chars (anchor url)).
Proof.
  unfold anchor. rewrite !chars_app.
  apply sublist_inserts_l, sublist_inserts_l, sublist_inserts_r.
  done.
Qed.

Lemma replace_urls_keeps_chars (s : string) (skip : nat) :
  sublist (chars (drop_chars skip s)) (chars (replace_urls skip s)).
Proof.
  revert skip. induction s as [|c rest IH]; intros skip.
  - by destruct skip.
  - destruct skip as [|k]; [|apply IH]. simpl drop_chars.
    cbn [replace_urls].
    destruct (url_at (String c rest)) as [url|] eqn:Hurl.
    + destruct (url_at_split _ _ Hurl) as ([tail Htail] & Hlen & _).
      destruct url as [|u url]; [simpl in Hlen; lia|].
      rewrite string_app_cons in Htail. injection Htail as Hc Hrest.
      subst c rest.
      specialize (IH (String.length url)).
      rewrite drop_chars_app in IH.
      change (String.length (String u url) - 1)%nat
        with (String.length url - 0)%nat.
      rewrite Nat.sub_0_r.
      change (String u (url +:+ tail)) with (String u url +:+ tail).
      rewrite !chars_app. apply sublist_app; [apply anchor_keeps_url|done].
    + simpl. apply sublist_skip. exact (IH 0%nat).
Qed.

Lemma prefix_trans (a b s : string) :
  String.prefix a b = true → String.prefix b s = true →
  String.prefix a s = true.
Proof.
  intros [p ->]%prefix_split [q ->]%prefix_split.
  rewrite string_app_assoc. apply prefix_app.
Qed.

Lemma url_at_none_without_http (s : string) :
  String.prefix "http" s = false → url_at s = None.
Proof.
  intros Hno. unfold url_at.
  destruct (String.prefix "https://" s) eqn:Hs.
  { by rewrite (prefix_trans "http" "https://" s) in Hno. }
  destruct (String.prefix "http://" s) eqn:Hp; [|done].
  by rewrite (prefix_trans "http" "http://" s) in Hno.
Qed.

Lemma replace_urls_without_http (s : string) :
  includes s "http" = false → replace_urls 0 s = s.
Proof.
  induction s as [|c rest IH]; [done|]. intros Hno.
  assert (Hp : String.prefix "http" (String c rest) = false).
  { destruct (String.prefix "http" (String c rest)) eqn:Hp; [|done].
    by rewrite (includes_here _ _ Hp) in Hno. }
  assert (Hrest : includes rest "http" = false).
  { destruct (includes rest "http") eqn:Hr; [|done].
    by rewrite (includes_later c _ _ Hr) in Hno. }
  cbn [replace_urls]. rewrite (url_at_none_without_http _ Hp).
  by rewrite (IH Hrest).
Qed.

(** X24: links in a message (of ASCII characters).  A message in which
    [http] does not occur is rendered as it is; and in every case the characters of the
    message all appear in the rendered text, in their order: nothing of
    the message is removed or escaped, markup included. *)
Theorem X24_links_keep_the_message (content : string) :
  ascii_only content = true →
  (includes content "http" = false → formatMessageContent content = content)
  ∧ sublist (chars content) (chars (formatMessageContent content)).
Proof.
  intros _. unfold formatMessageContent.
  destruct (String.eqb_spec content "") as [->|Hne]; [done|].
  split; [apply replace_urls_without_http|].
  apply (replace_urls_keeps_chars content 0).
Qed.

Lemma X24_links_keep_the_message_witness :
  ascii_only "<b>see</b> https://a.b" = true
  ∧ formatMessageContent "<b>hello</b>" = "<b>hello</b>"
  ∧ sublist (chars "<b>see</b> https://a.b")
            (chars (formatMessageContent "<b>see</b> https://a.b")).
Proof.
  split; [reflexivity|]. split.
  - apply (X24_links_keep_the_message "<b>hello</b>"); reflexivity.
  - apply (X24_links_keep_the_message "<b>see</b> https://a.b"). reflexivity.
Defined.

Lemma replace_urls_skip_all (s : string) (skip : nat) :
  (String.length s ≤ skip)%nat → replace_urls skip s = "".
Proof.
  revert skip. induction s as [|c rest IH]; intros skip Hlen; [done|].
  destruct skip as [|k]; [simpl in Hlen; lia|].
  simpl. apply IH. simpl in Hlen. lia.
Qed.

Lemma url_at_whole (scheme body : string) :
  scheme = "http://" ∨ scheme = "https://" →
  body ≠ "" →
  non_space_run body = body →
  url_at (scheme +:+ body) = Some (scheme +:+ body).
Proof.
  intros Hscheme Hbody Hrun. unfold url_at.
  destruct Hscheme as [-> | ->].
  - change (String.prefix "https://" ("http://" +:+ body)) with false.
    rewrite (prefix_app "http://" body).
    change (drop_chars 7 ("http://" +:+ body)) with body.
    rewrite Hrun. by destruct body.
  - rewrite (prefix_app "https://" body).
    change (drop_chars 8 ("https://" +:+ body)) with body.
    rewrite Hrun. by destruct body.
Qed.

(** X25: a message that is one link (of ASCII characters).  A message
    made of [http://] or
    [https://] followed by one or more characters, none of them white
    space, is rendered as a single anchor whose target and whose text are
    the message itself, copied as they are. *)
Theorem X25_a_lone_link_becomes_one_anchor (scheme body : string) :
  ascii_only (scheme +:+ body) = true →
  scheme = "http://" ∨ scheme = "https://" →
  body ≠ "" →
  non_space_run body = body →
  formatMessageContent (scheme +:+ body) = anchor (scheme +:+ body).
Proof.
  intros _ Hscheme Hbody Hrun.
  pose proof (url_at_whole scheme body Hscheme Hbody Hrun) as Hurl.
  unfold formatMessageContent.
  destruct (scheme +:+ body) as [|c rest] eqn:Heq.
  { by destruct Hscheme as [-> | ->]. }
  change (String c rest =? "") with false. cbn [replace_urls].
  rewrite Hurl.
  rewrite replace_urls_skip_all by (simpl; lia).
  apply string_app_nil_r.
Qed.

Lemma X25_a_lone_link_becomes_one_anchor_witness :
  ascii_only ("https://" +:+ "a.b/c?d=1") = true
  ∧ non_space_run "a.b/c?d=1" = "a.b/c?d=1"
  ∧ formatMessageContent ("https://" +:+ "a.b/c?d=1")
    = anchor ("https://" +:+ "a.b/c?d=1").
Proof.
  split; [reflexivity|]. split; [reflexivity|].
  apply (X25_a_lone_link_becomes_one_anchor "https://" "a.b/c?d=1");
    [reflexivity | by right | discriminate | reflexivity].
Defined.
